(** * Pesticide lookup pipeline: record store, lookup service, tool dispatcher

    A shallow embedding of [src/openai-cosmosdb/agrodata.py] (class
    [AgroDatabase]) and [src/openai-cosmosdb/openai-model.py] (the two
    lookup functions and [EventHandler]).

    Python objects that are shared and mutated (lists passed as arguments)
    live in a heap; effects (queries sent to the document store, draws of
    the random generator, tool outputs submitted to the run) are recorded
    in a world that is threaded through every call; exceptions are a
    second outcome that keeps the world reached when they were raised.
    What the assistant service streams, and the builtins [str],
    [str.lower] and [ast.literal_eval], are parameters. *)

From Stdlib Require Import String Ascii List ZArith Lia Bool.
From stdpp Require Import base decidable option list strings pretty.
Import ListNotations.

Local Open Scope string_scope.
Local Open Scope list_scope.

(* ===================================================================== *)
(** ** Python strings *)
(* ===================================================================== *)

Module PyStr.

(** Characters are bytes: a string is its UTF-8 text, in which the byte of
    a space, of a hyphen or of any other ASCII character stands for that
    character only. *)
Definition ascii_lower (c : ascii) : ascii :=
  let n := nat_of_ascii c in
  if (65 <=? n)%nat && (n <=? 90)%nat then ascii_of_nat (n + 32) else c.

Fixpoint map_chars (f : ascii -> ascii) (s : string) : string :=
  match s with
  | EmptyString => EmptyString
  | String c s' => String (f c) (map_chars f s')
  end.

(** [s.lower()] for a text of ASCII characters, where only the letters
    [A] to [Z] change. On other text [str.lower] follows the Unicode tables
    (it can even change the length) and is not defined here: the lookups
    take it as a parameter. *)
Definition lower_ascii (s : string) : string := map_chars ascii_lower s.

Definition ascii_text (s : string) : bool :=
  forallb (fun c => Nat.ltb (nat_of_ascii c) 128) (list_ascii_of_string s).

(** [s.split(sep)] for a separator of one character: empty pieces are
    kept, and the result is never the empty list. *)
Fixpoint split (sep : ascii) (s : string) : list string :=
  match s with
  | EmptyString => [EmptyString]
  | String c s' =>
      if Ascii.eqb c sep then EmptyString :: split sep s'
      else match split sep s' with
           | [] => [String c EmptyString]
           | w :: ws => String c w :: ws
           end
  end.

(** [sep.join(l)] *)
Fixpoint join (sep : string) (l : list string) : string :=
  match l with
  | [] => EmptyString
  | x :: l' =>
      match l' with
      | [] => x
      | _ :: _ => x ++ sep ++ join sep l'
      end
  end.

(** [s.replace(a, b)] for single characters. *)
Definition replace_char (a b : ascii) (s : string) : string :=
  map_chars (fun c => if Ascii.eqb c a then b else c) s.

(** The matching of SQL [LIKE]: [%] stands for any run of characters,
    [_] for any one character, every other character for itself; the
    comparison is case-sensitive. *)
Fixpoint sql_like (pat : string) (s : string) {struct pat} : bool :=
  match pat with
  | EmptyString => match s with EmptyString => true | _ => false end
  | String p pat' =>
      if Ascii.eqb p "%" then
        (fix skip (t : string) : bool :=
           sql_like pat' t ||
           match t with
           | EmptyString => false
           | String _ t' => skip t'
           end) s
      else
        match s with
        | EmptyString => false
        | String c s' =>
            (Ascii.eqb p "_" || Ascii.eqb p c) && sql_like pat' s'
        end
  end.

End PyStr.

(* ===================================================================== *)
(** ** Documents and data frames *)
(* ===================================================================== *)

(** A scalar of a stored document. [VNull] is JSON [null]; it is also what
    a data frame shows here in a cell whose document has no such attribute
    (pandas' NaN). pandas tells the two apart when it compares rows on one
    column, and stores the numbers of a column with a gap as floats; the
    frames below do neither, so what is proved of single cells is proved of
    strings, and of brands only where the products carry a brand name. *)
Inductive Value : Type :=
| VStr (s : string)
| VNum (z : Z)
| VNull.

#[global] Instance Value_eq_dec : EqDecision Value.
Proof. solve_decision. Defined.

(** A document (a JSON object, a Python dict): attribute name to scalar. *)
Definition Item : Type := list (string * Value).

Fixpoint dict_get (k : string) (d : Item) : option Value :=
  match d with
  | [] => None
  | (k', v) :: d' => if decide (k' = k) then Some v else dict_get k d'
  end.

Definition dict_keys (d : Item) : list string := map fst d.

(** Labels of [b] that are new with respect to [a], appended to [a]: the
    order of first appearance, as pandas orders the columns of a frame
    built from dicts and of an outer concatenation. *)
Definition label_union (a b : list string) : list string :=
  a ++ filter (fun x => x ∉ a) b.

(** Exceptions that the modelled code can raise. [KeyError] carries the
    labels that were not found. [DanglingReference] stands for the use of
    an address that holds no object, which no Python program can do; it
    only makes the heap operations total. *)
Inductive exn : Type :=
| KeyError (missing : list string)
| ValueError
| TypeError
| AttributeError
| IndexError
| UnboundLocalError
| SyntaxError
| CosmosResourceNotFoundError
| DanglingReference.

Inductive result (A : Type) : Type :=
| Ok (a : A)
| Err (e : exn).
Arguments Ok {A} a.
Arguments Err {A} e.

Record DataFrame : Type := mkFrame {
  columns : list string;
  rows : list Item
}.

Module Pandas.

(** [pd.DataFrame(items)] for a list of dicts. *)
Definition DataFrame_of (items : list Item) : DataFrame :=
  {| columns := fold_left label_union (map dict_keys items) [];
     rows := items |}.

(** [df.shape] *)
Definition shape (df : DataFrame) : nat * nat :=
  (length (rows df), length (columns df)).

(** [df.empty]: some axis has length 0. *)
Definition empty (df : DataFrame) : bool :=
  match rows df, columns df with
  | [], _ => true
  | _, [] => true
  | _, _ => false
  end.

Definition cell (r : Item) (c : string) : Value :=
  default VNull (dict_get c r).

(** The values of a row, in column order: what full-row comparison sees. *)
Definition cells (cols : list string) (r : Item) : list Value :=
  map (cell r) cols.

Definition missing_labels (labels cols : list string) : list string :=
  filter (fun x => x ∉ cols) labels.

(** [df.drop(columns= labels, inplace= True)]: every label must exist. *)
Definition drop (labels : list string) (df : DataFrame) : result DataFrame :=
  match missing_labels labels (columns df) with
  | [] =>
      Ok {| columns := filter (fun c => c ∉ labels) (columns df);
            rows := map (filter (fun kv : string * Value => kv.1 ∉ labels))
                        (rows df) |}
  | m => Err (KeyError m)
  end.

(** Rows whose key was not seen before, in order ([keep='first']). *)
Fixpoint keep_first {A K : Type} `{EqDecision K}
    (key : A -> K) (seen : list K) (l : list A) : list A :=
  match l with
  | [] => []
  | x :: l' =>
      if decide (key x ∈ seen) then keep_first key seen l'
      else x :: keep_first key (key x :: seen) l'
  end.

(** [df.drop_duplicates(inplace= True)]: an empty frame is left as it
    is, otherwise rows equal on every column collapse to the first. *)
Definition drop_duplicates (df : DataFrame) : DataFrame :=
  if empty df then df
  else {| columns := columns df;
          rows := keep_first (cells (columns df)) [] (rows df) |}.

(** [df.drop_duplicates(subset= labels, inplace= True)] *)
Definition drop_duplicates_subset (labels : list string) (df : DataFrame)
  : result DataFrame :=
  if empty df then Ok df
  else match missing_labels labels (columns df) with
       | [] => Ok {| columns := columns df;
                     rows := keep_first (cells labels) [] (rows df) |}
       | m => Err (KeyError m)
       end.

(** [df[label]], as the list of the column's values. *)
Definition getitem (label : string) (df : DataFrame) : result (list Value) :=
  if decide (label ∈ columns df)
  then Ok (map (fun r => cell r label) (rows df))
  else Err (KeyError [label]).

(** [pd.concat(frames)]: outer join on the columns, rows appended. *)
Definition concat (frames : list DataFrame) : result DataFrame :=
  match frames with
  | [] => Err ValueError
  | _ => Ok {| columns := fold_left label_union (map columns frames) [];
               rows := List.concat (map rows frames) |}
  end.

(** [n] draws without replacement; [draws] are the raw numbers of the
    generator, each reduced to a position of what is left. *)
Fixpoint pick {A : Type} (n : nat) (l : list A) (draws : list nat) : list A :=
  match n with
  | 0 => []
  | S n' =>
      let i := (hd 0 draws) mod (length l) in
      match l !! i with
      | Some x => x :: pick n' (delete i l) (tl draws)
      | None => []
      end
  end.

(** [series.sample(n).tolist()] *)
Definition sample {A : Type} (n : nat) (l : list A) (draws : list nat)
  : result (list A) :=
  if decide (n <= length l) then Ok (pick n l draws) else Err ValueError.

End Pandas.

(* ===================================================================== *)
(** ** The world: heap, generator, store log, submitted batches *)
(* ===================================================================== *)

Inductive MatchMode : Type := Like | Equal.

(** The query text of a read, by what it says: the attribute compared,
    how ([LIKE '%v%'] or [= 'v']), the interpolated value [v], and the
    [OFFSET 0 LIMIT n] clause if any. The code splices [v] into the text
    as it is: the record is what the store is asked when [v] has no quote
    and no backslash. *)
Record Query : Type := mkQuery {
  q_field : string;
  q_mode : MatchMode;
  q_value : string;
  q_limit : option nat
}.

(** The document store: named containers of documents, each in the order
    in which the store enumerates them. *)
Definition Database : Type := list (string * list Item).

Fixpoint get_container (name : string) (db : Database) : option (list Item) :=
  match db with
  | [] => None
  | (n, items) :: db' =>
      if decide (n = name) then Some items else get_container name db'
  end.

Record ToolOutput : Type := mkOutput {
  tool_call_id : string;
  output : string
}.

(** One call of [submit_tool_outputs_stream]. *)
Record Submission : Type := mkSubmission {
  sub_thread_id : string;
  sub_run_id : string;
  sub_tool_outputs : list ToolOutput
}.

Record World : Type := mkWorld {
  heap : list (list string);          (* Python list objects, by address *)
  rng : list nat;                     (* numbers the generator will give *)
  queries : list (string * Query);    (* reads sent to the store, oldest first *)
  submitted : list Submission         (* batches sent to the run, oldest first *)
}.

(** The four ways in which the code changes the world. *)
Definition with_heap (h : list (list string)) (w : World) : World :=
  {| heap := h; rng := rng w; queries := queries w; submitted := submitted w |}.

Definition with_read (r : string * Query) (w : World) : World :=
  {| heap := heap w; rng := rng w; queries := queries w ++ [r];
     submitted := submitted w |}.

Definition with_draws (n : nat) (w : World) : World :=
  {| heap := heap w; rng := drop n (rng w); queries := queries w;
     submitted := submitted w |}.

Definition with_batch (b : Submission) (w : World) : World :=
  {| heap := heap w; rng := rng w; queries := queries w;
     submitted := submitted w ++ [b] |}.

Inductive outcome (A : Type) : Type :=
| Ret (a : A) (w : World)
| Raise (e : exn) (w : World).
Arguments Ret {A} a w.
Arguments Raise {A} e w.

Definition M (A : Type) : Type := World -> outcome A.

Definition ret {A} (a : A) : M A := fun w => Ret a w.
Definition raise {A} (e : exn) : M A := fun w => Raise e w.
Definition bind {A B} (m : M A) (k : A -> M B) : M B :=
  fun w => match m w with
           | Ret a w' => k a w'
           | Raise e w' => Raise e w'
           end.
Definition lift {A} (r : result A) : M A :=
  match r with Ok a => ret a | Err e => raise e end.

Notation "'let*' x ':=' m 'in' k" := (bind m (fun x => k))
  (at level 10, x name, m at level 100, k at level 200, only parsing).

(** The world an outcome ends in, returned or raised. *)
Definition world_of {A} (o : outcome A) : World :=
  match o with Ret _ w => w | Raise _ w => w end.

Definition returns {A} (o : outcome A) : Prop :=
  match o with Ret _ _ => True | Raise _ _ => False end.

Module PyList.

(** [len(l)] *)
Definition len (l : nat) : M nat := fun w =>
  match heap w !! l with
  | Some xs => Ret (length xs) w
  | None => Raise DanglingReference w
  end.

(** [l[k]] *)
Definition getitem (l k : nat) : M string := fun w =>
  match heap w !! l with
  | Some xs => match xs !! k with
               | Some x => Ret x w
               | None => Raise IndexError w
               end
  | None => Raise DanglingReference w
  end.

(** [l[k] = v] *)
Definition setitem (l k : nat) (v : string) : M unit := fun w =>
  match heap w !! l with
  | Some xs =>
      if decide (k < length xs)
      then Ret tt (with_heap (<[l := <[k := v]> xs]> (heap w)) w)
      else Raise IndexError w
  | None => Raise DanglingReference w
  end.

(** The elements, as iteration over the list sees them. *)
Definition elements (l : nat) : M (list string) := fun w =>
  match heap w !! l with
  | Some xs => Ret xs w
  | None => Raise DanglingReference w
  end.

(** A new list object. *)
Definition alloc (xs : list string) : M nat := fun w =>
  Ret (length (heap w)) (with_heap (heap w ++ [xs]) w).

End PyList.

(** [for k in range(n): body(k)] *)
Fixpoint for_range_from (body : nat -> M unit) (start n : nat) : M unit :=
  match n with
  | 0 => ret tt
  | S n' => let* _ := body start in for_range_from body (S start) n'
  end.

Definition for_range (body : nat -> M unit) (n : nat) : M unit :=
  for_range_from body 0 n.

(** [series.sample(n).tolist()], drawing from the world's generator; one
    number of the generator stands for one draw. *)
Definition np_sample {A} (n : nat) (l : list A) : M (list A) := fun w =>
  match Pandas.sample n l (rng w) with
  | Ok xs => Ret xs (with_draws n w)
  | Err e => Raise e w
  end.

(* ===================================================================== *)
(** ** Record store: [AgroDatabase] *)
(* ===================================================================== *)

Module AgroDatabase.

(** The predicate of the store for the [WHERE] clause of a read: the
    attribute is a string and is [LIKE] or equal to the value. The bracket
    classes of [LIKE] are not covered: it is the store's predicate for a
    value without square brackets. *)
Definition matches (q : Query) (it : Item) : bool :=
  match dict_get (q_field q) it with
  | Some (VStr s) =>
      match q_mode q with
      | Like => PyStr.sql_like ("%" ++ q_value q ++ "%") s
      | Equal => String.eqb s (q_value q)
      end
  | _ => false
  end.

Definition run_query (q : Query) (items : list Item) : list Item :=
  let hits := List.filter (matches q) items in
  match q_limit q with
  | Some n => take n hits
  | None => hits
  end.

(** [list(database.get_container_client(name).query_items(query= q,
    enable_cross_partition_query= True))] *)
Definition query_items (database : Database) (name : string) (q : Query)
  : M (list Item) := fun w =>
  let w' := with_read (name, q) w in
  match get_container name database with
  | Some items => Ret (run_query q items) w'
  | None => Raise CosmosResourceNotFoundError w'
  end.

Definition internal_fields : list string :=
  ["id"; "_rid"; "_self"; "_etag"; "_attachments"; "_ts"].

(** The body shared by the six single-value functions. *)
Definition select_where (database : Database) (name : string) (q : Query)
  : M DataFrame :=
  let* items := query_items database name q in
  let result := Pandas.DataFrame_of items in
  if negb (Nat.eqb (Pandas.shape result).1 0)
     && negb (Nat.eqb (Pandas.shape result).2 0)
  then lift (Pandas.drop internal_fields result)
  else ret result.

(** The loop shared by the six multi-value functions; [data] is [None]
    until the first value has been queried. *)
Fixpoint union_loop (single : string -> M DataFrame)
    (data : option DataFrame) (values : list string) : M (option DataFrame) :=
  match values with
  | [] => ret data
  | cls :: rest =>
      let* r := single cls in
      match data with
      | None => union_loop single (Some r) rest
      | Some d =>
          let* d' := lift (Pandas.concat [d; r]) in
          union_loop single (Some d') rest
      end
  end.

(** The body shared by the six multi-value functions:
    [data.drop_duplicates] on [None] is an [AttributeError]. *)
Definition union_query (single : string -> M DataFrame)
    (values : list string) : M DataFrame :=
  let* data := union_loop single None values in
  match data with
  | None => raise AttributeError
  | Some d => ret (Pandas.drop_duplicates d)
  end.

Definition get_formulated_products_by_class
    (database : Database) (classe : string) : M DataFrame :=
  select_where database "produtosformulados"
    (mkQuery "CLASSE" Like classe (Some 1000)).

Definition get_formulated_products_by_classes
    (database : Database) (classes : list string) : M DataFrame :=
  union_query (get_formulated_products_by_class database) classes.

Definition get_formulated_products_by_cientific_prague_name
    (database : Database) (cientific_name : string) : M DataFrame :=
  select_where database "produtosformulados"
    (mkQuery "PRAGA_NOME_CIENTIFICO" Like cientific_name (Some 1000)).

Definition get_formulated_products_by_cientific_prague_names
    (database : Database) (names : list string) : M DataFrame :=
  union_query (get_formulated_products_by_cientific_prague_name database) names.

Definition get_formulated_products_by_common_prague_name
    (database : Database) (common_name : string) : M DataFrame :=
  select_where database "produtosformulados"
    (mkQuery "PRAGA_NOME_COMUM" Like common_name (Some 1000)).

Definition get_formulated_products_by_common_prague_names
    (database : Database) (names : list string) : M DataFrame :=
  union_query (get_formulated_products_by_common_prague_name database) names.

Definition get_technical_products_by_class
    (database : Database) (classe : string) : M DataFrame :=
  select_where database "produtostecnicos"
    (mkQuery "CLASSE" Like classe None).

Definition get_technical_products_by_classes
    (database : Database) (classes : list string) : M DataFrame :=
  union_query (get_technical_products_by_class database) classes.

Definition get_technical_products_by_toxicity_classification
    (database : Database) (classification : string) : M DataFrame :=
  select_where database "produtostecnicos"
    (mkQuery "CLASSIFICACAO_TOXICOLOGICA" Equal classification None).

Definition get_technical_products_by_toxicity_classifications
    (database : Database) (classes : list string) : M DataFrame :=
  union_query (get_technical_products_by_toxicity_classification database) classes.

Definition get_technical_products_by_environmental_classification
    (database : Database) (classification : string) : M DataFrame :=
  select_where database "produtostecnicos"
    (mkQuery "CLASSIFICACAO_AMBIENTAL" Equal classification None).

Definition get_technical_products_by_environmental_classifications
    (database : Database) (classes : list string) : M DataFrame :=
  union_query (get_technical_products_by_environmental_classification database) classes.

(** The six single-value functions, and for each its multi-value one. *)
Inductive Selector : Type :=
| FormulatedByClass
| FormulatedByCientificName
| FormulatedByCommonName
| TechnicalByClass
| TechnicalByToxicity
| TechnicalByEnvironment.

Definition single (s : Selector) : Database -> string -> M DataFrame :=
  match s with
  | FormulatedByClass => get_formulated_products_by_class
  | FormulatedByCientificName => get_formulated_products_by_cientific_prague_name
  | FormulatedByCommonName => get_formulated_products_by_common_prague_name
  | TechnicalByClass => get_technical_products_by_class
  | TechnicalByToxicity => get_technical_products_by_toxicity_classification
  | TechnicalByEnvironment => get_technical_products_by_environmental_classification
  end.

Definition plural (s : Selector) : Database -> list string -> M DataFrame :=
  match s with
  | FormulatedByClass => get_formulated_products_by_classes
  | FormulatedByCientificName => get_formulated_products_by_cientific_prague_names
  | FormulatedByCommonName => get_formulated_products_by_common_prague_names
  | TechnicalByClass => get_technical_products_by_classes
  | TechnicalByToxicity => get_technical_products_by_toxicity_classifications
  | TechnicalByEnvironment => get_technical_products_by_environmental_classifications
  end.

(** Container and query text of each single-value function. *)
Definition container_of (s : Selector) : string :=
  match s with
  | FormulatedByClass | FormulatedByCientificName | FormulatedByCommonName =>
      "produtosformulados"
  | _ => "produtostecnicos"
  end.

Definition query_of (s : Selector) (v : string) : Query :=
  match s with
  | FormulatedByClass => mkQuery "CLASSE" Like v (Some 1000)
  | FormulatedByCientificName => mkQuery "PRAGA_NOME_CIENTIFICO" Like v (Some 1000)
  | FormulatedByCommonName => mkQuery "PRAGA_NOME_COMUM" Like v (Some 1000)
  | TechnicalByClass => mkQuery "CLASSE" Like v None
  | TechnicalByToxicity => mkQuery "CLASSIFICACAO_TOXICOLOGICA" Equal v None
  | TechnicalByEnvironment => mkQuery "CLASSIFICACAO_AMBIENTAL" Equal v None
  end.

End AgroDatabase.

(* ===================================================================== *)
(** ** Lookup service and tool dispatcher: [openai-model.py] *)
(* ===================================================================== *)

(** An argument of a lookup: a string, a list object (by address), or a
    value of any other type. *)
Inductive PyVal : Type :=
| PStr (s : string)
| PList (l : nat)
| PNone.

(** A value as a literal denotes it, before any object is created. *)
Inductive PyLit : Type :=
| LStr (s : string)
| LList (xs : list string)
| LNone.

Record ToolCall : Type := mkCall {
  call_id : string;
  function_name : string;
  function_arguments : string
}.

(** [event.data]: the run, with the tool calls of its required action. *)
Record Run : Type := mkRun {
  run_id : string;
  tool_calls : list ToolCall
}.

Record Event : Type := mkEvent {
  event_name : string;
  event_data : Run
}.

(** What a run streams to its event handler: its events, in order. With
    an event goes what the run streams once tool outputs are submitted for
    it, which the service decides from the outputs; a run ends, so it
    streams finitely many events. The text deltas, which the code only
    prints, are left out. *)
Inductive Stream : Type :=
| EndOfStream
| Emit (event : Event) (continued : list ToolOutput -> Stream) (rest : Stream).

Module Model.
Section Builtins.

(** [str] of a list of values, [str.lower] and [ast.literal_eval] of the
    argument text of a tool call belong to Python, not to this repository. *)
Variable py_str : list Value -> string.
Variable lower : string -> string.
Variable literal_eval : string -> result (list (string * PyLit)).

(** ['-'.join(s.lower().split(' '))] *)
Definition normalize (s : string) : string :=
  PyStr.join "-" (PyStr.split " " (lower s)).

(** The body of the loop over a list of names:
    [common_name[k] = '-'.join(common_name[k].lower().split(' '))]. *)
Definition normalize_at (l k : nat) : M unit :=
  let* x := PyList.getitem l k in
  PyList.setitem l k (normalize x).

(** The end shared by the two lookups:
    [df.drop_duplicates(subset= ["MARCA_COMERCIAL"], inplace= True)] and
    [str(df['MARCA_COMERCIAL'].sample(5).tolist())]. *)
Definition sample_brands (df : DataFrame) : M string :=
  let* df := lift (Pandas.drop_duplicates_subset ["MARCA_COMERCIAL"] df) in
  let* brands := lift (Pandas.getitem "MARCA_COMERCIAL" df) in
  let* picked := np_sample 5 brands in
  ret (py_str picked).

Definition get_pesticides_by_crop_and_common_name
    (database : Database) (crop common_name : PyVal) : M string :=
  let* df :=
    match common_name with
    | PStr s =>
        let common_name := normalize s in
        AgroDatabase.get_formulated_products_by_common_prague_name
          database common_name
    | PList l =>
        let* n := PyList.len l in
        let* _ := for_range (normalize_at l) n in
        let* names := PyList.elements l in
        AgroDatabase.get_formulated_products_by_common_prague_names
          database names
    | PNone => raise UnboundLocalError
    end in
  sample_brands df.

Definition get_pesticides_by_crop_and_scientific_name
    (database : Database) (crop scientific_name : PyVal) : M string :=
  let* df :=
    match scientific_name with
    | PStr s =>
        AgroDatabase.get_formulated_products_by_cientific_prague_name
          database s
    | PList l =>
        let* names := PyList.elements l in
        AgroDatabase.get_formulated_products_by_cientific_prague_names
          database names
    | PNone => raise UnboundLocalError
    end in
  sample_brands df.

(** The objects a parsed literal stands for; a list is a new object. *)
Definition eval_lit (v : PyLit) : M PyVal :=
  match v with
  | LStr s => ret (PStr s)
  | LList xs => let* l := PyList.alloc xs in ret (PList l)
  | LNone => ret PNone
  end.

Fixpoint eval_dict (d : list (string * PyLit)) : M (list (string * PyVal)) :=
  match d with
  | [] => ret []
  | (k, v) :: d' =>
      let* x := eval_lit v in
      let* rest := eval_dict d' in
      ret ((k, x) :: rest)
  end.

Fixpoint kwarg (k : string) (kw : list (string * PyVal)) : option PyVal :=
  match kw with
  | [] => None
  | (k', v) :: kw' => if decide (k' = k) then Some v else kwarg k kw'
  end.

(** A call of [f] with the dict [kw] unpacked as keyword arguments, for
    a function of the two parameters [crop] and [p]: a missing or an
    unexpected keyword is a [TypeError]. *)
Definition call_kwargs (p : string) (f : PyVal -> PyVal -> M string)
    (kw : list (string * PyVal)) : M string :=
  match kwarg "crop" kw, kwarg p kw with
  | Some c, Some x =>
      if decide (length kw = 2) then f c x else raise TypeError
  | _, _ => raise TypeError
  end.

(** The call of [f] on the unpacked dict
    [ast.literal_eval(tool.function.arguments)]. *)
Definition call_tool (p : string) (f : PyVal -> PyVal -> M string)
    (tool : ToolCall) : M string :=
  let* d := lift (literal_eval (function_arguments tool)) in
  let* kw := eval_dict d in
  call_kwargs p f kw.

(** The loop of [handle_requires_action] over the tool calls, from the
    outputs appended so far. *)
Fixpoint collect_outputs (database : Database) (tools : list ToolCall)
    (tool_outputs : list ToolOutput) : M (list ToolOutput) :=
  match tools with
  | [] => ret tool_outputs
  | tool :: rest =>
      if decide (function_name tool = "pesticide_by_crop_and_common_name")
      then
        let* out := call_tool "common_name"
                      (get_pesticides_by_crop_and_common_name database) tool in
        collect_outputs database rest
          (tool_outputs ++ [mkOutput (call_id tool) out])
      else if decide (function_name tool = "pesticide_by_crop_and_scientific_name")
      then
        let* out := call_tool "scientific_name"
                      (get_pesticides_by_crop_and_scientific_name database) tool in
        collect_outputs database rest
          (tool_outputs ++ [mkOutput (call_id tool) out])
      else collect_outputs database rest tool_outputs
  end.

(** [client.beta.threads.runs.submit_tool_outputs_stream(thread_id= ...,
    run_id= ..., tool_outputs= ..., event_handler= ...)]: the batch reaches
    the run. *)
Definition submit_tool_outputs_stream (thread_id run_id : string)
    (tool_outputs : list ToolOutput) : M unit := fun w =>
  Ret tt (with_batch (mkSubmission thread_id run_id tool_outputs) w).

(** [EventHandler.submit_tool_outputs]: the one call of
    [submit_tool_outputs_stream], then the loop over the text deltas of
    the stream it opened, which hands every event of that stream to a new
    [EventHandler]; [continue tool_outputs] is that loop. *)
Definition submit_tool_outputs (continue : list ToolOutput -> M unit)
    (thread_id : string) (tool_outputs : list ToolOutput) (run_id : string)
  : M unit :=
  let* _ := submit_tool_outputs_stream thread_id run_id tool_outputs in
  continue tool_outputs.

(** [EventHandler.handle_requires_action]; [thread_id] is
    [self.current_run.thread_id]. *)
Definition handle_requires_action (continue : list ToolOutput -> M unit)
    (database : Database) (thread_id : string)
    (data : Run) (run_id : string) : M unit :=
  let* tool_outputs := collect_outputs database (tool_calls data) [] in
  submit_tool_outputs continue thread_id tool_outputs run_id.

(** [EventHandler.on_event] *)
Definition on_event (continue : list ToolOutput -> M unit)
    (database : Database) (thread_id : string) (event : Event) : M unit :=
  if decide (event_name event = "thread.run.requires_action")
  then handle_requires_action continue database thread_id
         (event_data event) (run_id (event_data event))
  else ret tt.

(** A stream consumed to its end under an [EventHandler]
    ([stream.until_done()] in the script, the loop over [stream.text_deltas]
    in [submit_tool_outputs]): [on_event] on each event in turn, where the
    stream opened by a submission is consumed in the same way. *)
Fixpoint until_done (database : Database) (thread_id : string)
    (stream : Stream) {struct stream} : M unit :=
  match stream with
  | EndOfStream => ret tt
  | Emit event continued rest =>
      let* _ := on_event
                  (fun tool_outputs =>
                     until_done database thread_id (continued tool_outputs))
                  database thread_id event in
      until_done database thread_id rest
  end.

End Builtins.
End Model.

(** The names of the dispatch table. *)
Definition dispatch_table : list string :=
  ["pesticide_by_crop_and_common_name"; "pesticide_by_crop_and_scientific_name"].

(* ===================================================================== *)
(** ** Concrete stores, worlds and tool calls used as test inputs *)
(* ===================================================================== *)

Module Fixture.

(** A formulated product as the store returns it: the attributes of the
    ingested file and the fields the store adds. *)
Definition formulated (n : Z) (brand cientific common : string) : Item :=
  [("NR_REGISTRO", VNum n);
   ("MARCA_COMERCIAL", VStr brand);
   ("CLASSE", VStr "Inseticida");
   ("CULTURA", VStr "Soja");
   ("PRAGA_NOME_CIENTIFICO", VStr cientific);
   ("PRAGA_NOME_COMUM", VStr common);
   ("id", VNum n);
   ("_rid", VStr "rid");
   ("_self", VStr "dbs/agro/colls/produtosformulados");
   ("_etag", VStr "etag");
   ("_attachments", VStr "attachments/");
   ("_ts", VNum 1733000000)].

Definition technical (n : Z) (brand classe : string) : Item :=
  [("NUMERO_REGISTRO", VNum n);
   ("PRODUTO_TECNICO_MARCA_COMERCIAL", VStr brand);
   ("CLASSE", VStr classe);
   ("id", VNum n);
   ("_rid", VStr "rid");
   ("_self", VStr "dbs/agro/colls/produtostecnicos");
   ("_etag", VStr "etag");
   ("_attachments", VStr "attachments/");
   ("_ts", VNum 1733000000)].

(** Six brands against the same pest, one of them registered twice. *)
Definition soy_products : list Item :=
  [formulated 1 "Ampligo" "Spodoptera frugiperda" "lagarta-militar";
   formulated 2 "Belt" "Spodoptera frugiperda" "lagarta-militar";
   formulated 3 "Certero" "Spodoptera frugiperda" "lagarta-militar";
   formulated 4 "Dimilin" "Spodoptera frugiperda" "lagarta-militar";
   formulated 5 "Exalt" "Spodoptera frugiperda" "lagarta-militar";
   formulated 6 "Belt" "Spodoptera frugiperda" "lagarta-do-cartucho";
   formulated 7 "Fastac" "Spodoptera frugiperda" "lagarta-do-cartucho";
   formulated 8 "Glifosato" "Ipomoea purpurea" "flor-de-poeta"].

Definition soy_db : Database :=
  [("produtostecnicos",
    [technical 1 "Atrazina Tecnica" "Herbicida";
     technical 2 "Mancozebe Tecnico" "Fungicida";
     technical 3 "Glifosato Tecnico" "Herbicida"]);
   ("produtosformulados", soy_products)].

(** Both containers exist and hold no document. *)
Definition empty_db : Database :=
  [("produtostecnicos", []); ("produtosformulados", [])].


Definition world0 : World :=
  {| heap := []; rng := [3; 1; 4; 1; 5; 9; 2; 6; 5; 3; 5; 8];
     queries := []; submitted := [] |}.

(** A world in which the caller holds one list object, at address 0. *)
Definition world_with_list (names : list string) : World :=
  {| heap := [names]; rng := [3; 1; 4; 1; 5; 9; 2; 6; 5; 3; 5; 8];
     queries := []; submitted := [] |}.

Definition repr_value (v : Value) : string :=
  match v with
  | VStr s => "'" ++ s ++ "'"
  | VNum z => pretty z
  | VNull => "nan"
  end.

(** The text of a list of plain values, as [str] prints it. *)
Definition repr_list (l : list Value) : string :=
  "[" ++ PyStr.join ", " (map repr_value l) ++ "]".

Definition args_t1 : string := "{'crop': 'soja', 'common_name': 'lagarta'}".
Definition args_t2 : string :=
  "{'crop': 'soja', 'scientific_name': 'Spodoptera frugiperda'}".

(** [ast.literal_eval] on the two argument texts above. *)
Definition parse_args (s : string) : result (list (string * PyLit)) :=
  if decide (s = args_t1)
  then Ok [("crop", LStr "soja"); ("common_name", LStr "lagarta")]
  else if decide (s = args_t2)
  then Ok [("crop", LStr "soja");
           ("scientific_name", LStr "Spodoptera frugiperda")]
  else Err SyntaxError.

Definition t1 : ToolCall :=
  mkCall "t1" "pesticide_by_crop_and_common_name" args_t1.
Definition t2 : ToolCall :=
  mkCall "t2" "pesticide_by_crop_and_scientific_name" args_t2.

(** Only the technical products were ingested: the container of the
    formulated products does not exist. *)
Definition technical_only_db : Database :=
  [("produtostecnicos",
    [technical 1 "Atrazina Tecnica" "Herbicida";
     technical 2 "Mancozebe Tecnico" "Fungicida"])].

(** A run that ends once it has the outputs, and one that first asks for
    a second lookup. *)
Definition ends_after : list ToolOutput -> Stream := fun _ => EndOfStream.

Definition asks_again : list ToolOutput -> Stream := fun _ =>
  Emit (mkEvent "thread.run.step.completed" (mkRun "run" []))
    ends_after
    (Emit (mkEvent "thread.run.requires_action" (mkRun "run" [t2]))
       ends_after EndOfStream).

(** The fields a store adds, with values that do not matter here. *)
Definition stamp (body : Item) : list (string * Value) :=
  [("_rid", VStr "rid"); ("_self", VStr "self"); ("_etag", VStr "etag");
   ("_attachments", VStr "attachments/"); ("_ts", VNum 1733000000)].

(** Identifiers that differ from one another. *)
Definition uuid4 (n : nat) : string := pretty n.

(** The frame of a file of three technical products. *)
Definition technical_file : DataFrame :=
  {| columns := ["NUMERO_REGISTRO"; "PRODUTO_TECNICO_MARCA_COMERCIAL"; "CLASSE"];
     rows := [[("NUMERO_REGISTRO", VNum 1);
               ("PRODUTO_TECNICO_MARCA_COMERCIAL", VStr "Atrazina Tecnica");
               ("CLASSE", VStr "Herbicida")];
              [("NUMERO_REGISTRO", VNum 2);
               ("PRODUTO_TECNICO_MARCA_COMERCIAL", VStr "Mancozebe Tecnico");
               ("CLASSE", VStr "Fungicida")];
              [("NUMERO_REGISTRO", VNum 3);
               ("PRODUTO_TECNICO_MARCA_COMERCIAL", VStr "Glifosato Tecnico");
               ("CLASSE", VStr "Herbicida")]] |}.

End Fixture.

(* ===================================================================== *)
(** ** Notions used to state the properties *)
(* ===================================================================== *)

(** What is known of [str.lower] on ASCII text: only the letters [A] to
    [Z] change. *)
Definition lowers_ascii_text (lower : string -> string) : Prop :=
  forall s, PyStr.ascii_text s = true -> lower s = PyStr.lower_ascii s.

(** A computation leaves the component [f] of the world as it found it,
    whether it returns or raises. *)
Definition preserves {A X : Type} (f : World -> X) (m : M A) : Prop :=
  forall w, f (world_of (m w)) = f w.

(** Run [f] on each element in order, collecting the results. *)
Fixpoint mapM {A B : Type} (f : A -> M B) (l : list A) : M (list B) :=
  match l with
  | [] => ret []
  | x :: l' =>
      let* y := f x in
      let* ys := mapM f l' in
      ret (y :: ys)
  end.

(** The multi-value query in the words of the specification: the
    single-value query once per value, the results concatenated, then exact
    duplicate rows dropped across the whole. *)
Definition union_spec (single : string -> M DataFrame) (values : list string)
  : M DataFrame :=
  let* frames := mapM single values in
  let* whole := lift (Pandas.concat frames) in
  ret (Pandas.drop_duplicates whole).

(** No two rows of the frame agree on every column. *)
Definition no_duplicate_rows (df : DataFrame) : Prop :=
  NoDup (map (Pandas.cells (columns df)) (rows df)).

(** The frame shows no field of the store's own, as a column or in a row. *)
Definition only_domain_attributes (df : DataFrame) : Prop :=
  forall f, f ∈ AgroDatabase.internal_fields ->
    (f ∉ columns df) /\ (forall r, r ∈ rows df -> dict_get f r = None).

(** Every stored document carries the fields the store adds. *)
Definition store_fields_present (items : list Item) : Prop :=
  forall it f, it ∈ items -> f ∈ AgroDatabase.internal_fields ->
    f ∈ dict_keys it.

(** The brand names of a frame, one per brand, before any is drawn. *)
Definition brands_of (frame : M DataFrame) : M (list Value) :=
  let* df := frame in
  let* df := lift (Pandas.drop_duplicates_subset ["MARCA_COMERCIAL"] df) in
  lift (Pandas.getitem "MARCA_COMERCIAL" df).

(** Draw five of the brands and print them. *)
Definition draw_five (py_str : list Value -> string) (brands : list Value)
  : M string :=
  let* picked := np_sample 5 brands in
  ret (py_str picked).

(** The read a single-value function sends for the value [v]. *)
Definition read_of (s : AgroDatabase.Selector) (v : string) : string * Query :=
  (AgroDatabase.container_of s, AgroDatabase.query_of s v).

(** What the dispatcher is to do with the tool calls of one event: submit,
    as its next batch, for this thread and run, one output per call, under
    the call's id, in the order of the calls. *)
Definition batch_in_order (thread_id rid : string) (calls : list ToolCall)
    (w : World) (o : outcome unit) : Prop :=
  exists outs more,
    submitted (world_of o)
    = submitted w ++ mkSubmission thread_id rid outs :: more /\
    map tool_call_id outs = map call_id calls.

(** A computation takes no batch back: it leaves the batches submitted
    before it and may add some. *)
Definition appends {A : Type} (m : M A) : Prop :=
  forall w, exists more, submitted (world_of (m w)) = submitted w ++ more.

(* ===================================================================== *)
(** ** Further code of the two files *)
(* ===================================================================== *)

Module Records.

(** [AgroDatabase.get_all_records(container)], for a container given by the
    documents it holds: the frame of [SELECT * FROM c], returned as built. *)
Definition get_all_records (container : list Item) : DataFrame :=
  Pandas.DataFrame_of container.

(** [AgroDatabase.container_exists(database, container_name)]:
    [container_name in [c['id'] for c in database.list_containers()]]. *)
Definition container_exists (database : Database) (container_name : string)
  : bool :=
  bool_decide (container_name ∈ map fst database).

(** [data.to_dict(orient='records')]: one dict per row, holding every
    column of the frame. *)
Definition to_dict_records (data : DataFrame) : list Item :=
  map (fun r => map (fun c => (c, Pandas.cell r c)) (columns data)) (rows data).

(** [d[k] = v] on a dict: the value of an existing key is replaced where it
    stands, a new key goes to the end. *)
Fixpoint dict_set (k : string) (v : Value) (d : list (string * Value)) : Item :=
  match d with
  | [] => [(k, v)]
  | (k', v') :: d' =>
      if decide (k' = k) then (k, v) :: d' else (k', v') :: dict_set k v d'
  end.

(** What loading ends in: every record created, or the store refusing one
    (the documents created before it stay). *)
Inductive load_result : Type :=
| Loaded (container : list Item)
| Conflict (container : list Item).

Definition container_after (r : load_result) : list Item :=
  match r with Loaded c => c | Conflict c => c end.

Section Store.

(** The fields [_rid], [_self], [_etag], [_attachments] and [_ts] with the
    values the store gives them when it creates the document [body]. *)
Variable stamp : Item -> list (string * Value).

(** [str(uuid.uuid4())], by the number of identifiers generated before. *)
Variable uuid4 : nat -> string.

(** The document the store keeps for [body]. *)
Definition stored (body : Item) : Item :=
  fold_left (fun d kv => dict_set kv.1 kv.2 d) (stamp body) body.

(** The store holds no two documents with the same [id] in the same
    partition; both containers are partitioned on [CLASSE]. *)
Definition clashes (body doc : Item) : bool :=
  bool_decide (dict_get "id" doc = dict_get "id" body /\
               dict_get "CLASSE" doc = dict_get "CLASSE" body).

(** [container.create_item(body= item)] *)
Definition create_item (container : list Item) (body : Item)
  : option (list Item) :=
  if existsb (clashes body) container then None
  else Some (container ++ [stored body]).

(** The loop of [load_json_to_cosmos] over the records, [n] identifiers
    having been generated before:
    [item['id'] = str(uuid.uuid4()); container.create_item(body= item)]. *)
Fixpoint load_items (n : nat) (items : list Item) (container : list Item)
  : load_result :=
  match items with
  | [] => Loaded container
  | item :: rest =>
      match create_item container (dict_set "id" (VStr (uuid4 n)) item) with
      | Some container' => load_items (S n) rest container'
      | None => Conflict container
      end
  end.

(** [AgroDatabase.load_json_to_cosmos(container, json_file_path)], for the
    frame [data] that [pd.read_json] gives for the file. *)
Definition load_json_to_cosmos (n : nat) (container : list Item)
    (data : DataFrame) : load_result :=
  load_items n (to_dict_records data) container.

(** [AgroDatabase.create_container(database, container_name, partition_key)]:
    [create_container_if_not_exists]. *)
Definition create_container (database : Database) (container_name : string)
  : Database :=
  if container_exists database container_name then database
  else database ++ [(container_name, [])].

(** The documents of a container, replaced. *)
Definition put_container (name : string) (items : list Item) (db : Database)
  : Database :=
  map (fun p : string * list Item =>
         if decide (p.1 = name) then (name, items) else p) db.

(** The guarded ingestion of the script of [agrodata.py]:
    [if not container_exists(database, name): container = create_container(...);
     csv_to_json(...); load_json_to_cosmos(container, json_file_path)].
    The flag tells whether the script went on (no record was refused). *)
Definition ingest_if_missing (n : nat) (database : Database) (name : string)
    (data : DataFrame) : Database * bool :=
  if container_exists database name then (database, true)
  else
    let database' := create_container database name in
    match load_json_to_cosmos n [] data with
    | Loaded c => (put_container name c database', true)
    | Conflict c => (put_container name c database', false)
    end.

End Store.

End Records.

(** The first step of the script of [openai-model.py]: each question goes
    to the classifier on a thread of its own, and the text of the newest
    message of that thread decides on which list the question is put. *)
Module Classifier.
Section Assistant.

(** [reply k] is [messages.data[0].content[0].text.value] after the run on
    the [k]-th question: what the assistant service answered. *)
Variable reply : nat -> string.

(** The loop over [questions], from the [k]-th question on. *)
Fixpoint classify_from (k : nat) (questions : list string)
    (filtered_questions rejected_questions : list string)
  : list string * list string :=
  match questions with
  | [] => (filtered_questions, rejected_questions)
  | question :: rest =>
      if decide (reply k = "pesticides")
      then classify_from (S k) rest (filtered_questions ++ [question])
             rejected_questions
      else classify_from (S k) rest filtered_questions
             (rejected_questions ++ [question])
  end.

Definition classify (questions : list string) : list string * list string :=
  classify_from 0 questions [] [].

End Assistant.
End Classifier.

(* ===================================================================== *)
(** ** Notions used to state further properties *)
(* ===================================================================== *)

(** The store adds exactly its five fields, whatever the document. *)
Definition stamps_store_fields (stamp : Item -> list (string * Value)) : Prop :=
  forall body, map fst (stamp body)
               = ["_rid"; "_self"; "_etag"; "_attachments"; "_ts"].

(** The documents that loading creates for the records [items], the first
    identifier used being the [n]-th. *)
Fixpoint new_documents (stamp : Item -> list (string * Value))
    (uuid4 : nat -> string) (n : nat) (items : list Item) : list Item :=
  match items with
  | [] => []
  | item :: rest =>
      Records.stored stamp (Records.dict_set "id" (VStr (uuid4 n)) item)
      :: new_documents stamp uuid4 (S n) rest
  end.

(** A row read back agrees with the record that was ingested on every
    attribute that is no field of the store. *)
Definition reads_back (record row : Item) : Prop :=
  forall c, c ∉ AgroDatabase.internal_fields -> dict_get c row = dict_get c record.

(** The value holds no character that the query text or [LIKE] reads as
    anything but itself: no quote (codes 39 and 34), no backslash (92), no
    wildcard (37 and 95), no square bracket (91 and 93) and no caret (94).
    For such a value the record of a read is the query the store runs. *)
Definition plain_char (c : ascii) : bool :=
  negb (existsb (Nat.eqb (nat_of_ascii c)) [39; 34; 92; 37; 95; 91; 93; 94]).

Definition plain_value (v : string) : bool :=
  forallb plain_char (list_ascii_of_string v).


(** Every product that the read selects carries a brand name. *)
Definition brand_names_present (q : Query) (items : list Item) : Prop :=
  forall it, it ∈ items -> AgroDatabase.matches q it = true ->
    exists b, dict_get "MARCA_COMERCIAL" it = Some (VStr b).

(** A document without the fields the store adds. *)
Definition strip_internal (it : list (string * Value)) : Item :=
  filter (fun kv : string * Value => kv.1 ∉ AgroDatabase.internal_fields) it.

(** The frame a single-value function computes, apart from the world. *)
Definition frame_of (s : AgroDatabase.Selector) (db : Database) (v : string)
  : result DataFrame :=
  match get_container (AgroDatabase.container_of s) db with
  | None => Err CosmosResourceNotFoundError
  | Some items =>
      let df := Pandas.DataFrame_of
                  (AgroDatabase.run_query (AgroDatabase.query_of s v) items) in
      if negb (Nat.eqb (Pandas.shape df).1 0)
         && negb (Nat.eqb (Pandas.shape df).2 0)
      then Pandas.drop AgroDatabase.internal_fields df
      else Ok df
  end.

(** The tool call names a function of the dispatch table. *)
Definition known (t : ToolCall) : bool :=
  bool_decide (function_name t ∈ dispatch_table).

(** One tool call of the dispatch table, answered: the lookup it names is
    called on its arguments and the text wrapped under the call's id. *)
Definition answer_call (py_str : list Value -> string)
    (lower : string -> string)
    (literal_eval : string -> result (list (string * PyLit)))
    (database : Database) (tool : ToolCall) : M ToolOutput :=
  let* out :=
    if decide (function_name tool = "pesticide_by_crop_and_common_name")
    then Model.call_tool literal_eval "common_name"
           (Model.get_pesticides_by_crop_and_common_name py_str lower database)
           tool
    else Model.call_tool literal_eval "scientific_name"
           (Model.get_pesticides_by_crop_and_scientific_name py_str database) tool in
  ret (mkOutput (call_id tool) out).

(** The questions whose reply, by position, satisfies [p]. *)
Fixpoint select_by_reply (p : string -> bool) (reply : nat -> string)
    (k : nat) (questions : list string) : list string :=
  match questions with
  | [] => []
  | q :: rest =>
      if p (reply k) then q :: select_by_reply p reply (S k) rest
      else select_by_reply p reply (S k) rest
  end.

(* ===================================================================== *)
(** ** Strings: splitting on a character and joining is a replacement *)
(* ===================================================================== *)

Section StringFacts.
Import PyStr.

Lemma split_not_nil sep s : split sep s <> [].
Proof.
  destruct s as [|c s]; simpl; [discriminate|].
  destruct (Ascii.eqb c sep); [discriminate|].
  destruct (split sep s); discriminate.
Qed.

Lemma join_cons_char sep c w ws :
  join sep (String c w :: ws) = String c (join sep (w :: ws)).
Proof. destruct ws; reflexivity. Qed.

Lemma join_split a b s :
  join (String b EmptyString) (split a s) = replace_char a b s.
Proof.
  induction s as [|c s IH]; simpl; [reflexivity|].
  unfold replace_char in *. simpl.
  destruct (Ascii.eqb c a) eqn:E.
  - destruct (split a s) eqn:Es; [now apply split_not_nil in Es|].
    simpl. simpl in IH. now rewrite IH.
  - destruct (split a s) eqn:Es; [now apply split_not_nil in Es|].
    rewrite join_cons_char. now rewrite IH.
Qed.

End StringFacts.

Lemma normalize_replace_lower lower s :
  Model.normalize lower s = PyStr.replace_char " " "-" (lower s).
Proof. unfold Model.normalize. apply (join_split " " "-"). Qed.

(* ===================================================================== *)
(** ** Lists: first occurrences, draws without replacement, label unions *)
(* ===================================================================== *)

Section ListFacts.
Import Pandas.

Context {A K : Type} `{EqDecision K}.
Implicit Types (key : A -> K) (seen : list K) (l : list A).

Lemma keep_first_elem key seen l x :
  x ∈ keep_first key seen l -> x ∈ l /\ key x ∉ seen.
Proof.
  revert seen. induction l as [|y l IH]; intros seen; simpl.
  - intros Hx. inversion Hx.
  - destruct (decide (key y ∈ seen)) as [Hin|Hout].
    + intros Hx. destruct (IH _ Hx) as [H1 H2]. split; [now right|assumption].
    + intros Hx. apply elem_of_cons in Hx as [->|Hx].
      * split; [now left|assumption].
      * destruct (IH _ Hx) as [H1 H2]. split; [now right|].
        intros Hs. apply H2. now right.
Qed.

Lemma keep_first_NoDup key seen l :
  NoDup (map key (keep_first key seen l)).
Proof.
  revert seen. induction l as [|y l IH]; intros seen; simpl.
  - constructor.
  - destruct (decide (key y ∈ seen)) as [Hin|Hout]; [apply IH|].
    simpl. constructor; [|apply IH].
    intros Hy. apply list_elem_of_fmap in Hy as (z & Hz & Hin).
    apply keep_first_elem in Hin as [_ Hn]. apply Hn. rewrite Hz. now left.
Qed.

Lemma keep_first_covers key seen l x :
  x ∈ l -> key x ∈ seen \/ key x ∈ map key (keep_first key seen l).
Proof.
  revert seen. induction l as [|y l IH]; intros seen Hx; [inversion Hx|].
  simpl. apply elem_of_cons in Hx as [->|Hx].
  - destruct (decide (key y ∈ seen)); [now left|]. right. simpl. now left.
  - destruct (decide (key y ∈ seen)) as [Hin|Hout]; [now apply IH|].
    destruct (IH (key y :: seen) Hx) as [Hs|Hk].
    + apply elem_of_cons in Hs as [->|Hs]; [right; simpl; now left|now left].
    + right. simpl. now right.
Qed.


End ListFacts.

Section PickFacts.
Import Pandas.
Context {A : Type}.

(** [n] draws from at least [n] elements are [n] of them, each taken once:
    the list is the draws followed by what was left, up to order. *)
Lemma pick_Permutation (n : nat) : forall (l : list A) (draws : list nat),
  n <= length l ->
  exists rest, l ≡ₚ pick n l draws ++ rest /\ length (pick n l draws) = n.
Proof.
  induction n as [|n IH]; intros l draws Hn; simpl.
  - exists l. split; reflexivity.
  - assert (Hi : hd 0 draws mod length l < length l)
      by (apply Nat.mod_upper_bound; lia).
    destruct (lookup_lt_is_Some_2 l _ Hi) as [x Hx]. rewrite Hx.
    pose proof (length_delete l _ (ex_intro _ x Hx)) as Hlen.
    destruct (IH (delete (hd 0 draws mod length l) l) (tl draws)) as (rest & Hp & Hl);
      [lia|].
    exists rest. split; [|simpl; lia].
    etrans; [apply (delete_Permutation l _ x Hx)|].
    simpl. now apply Permutation_skip.
Qed.

Lemma pick_length n (l : list A) draws :
  n <= length l -> length (pick n l draws) = n.
Proof. intros H. now destruct (pick_Permutation n l draws H) as (? & _ & ?). Qed.

Lemma pick_NoDup n (l : list A) draws :
  n <= length l -> NoDup l -> NoDup (pick n l draws).
Proof.
  intros H Hnd. destruct (pick_Permutation n l draws H) as (rest & Hp & _).
  rewrite Hp in Hnd. now apply NoDup_app in Hnd as [? _].
Qed.

Lemma pick_elem n (l : list A) draws x :
  n <= length l -> x ∈ pick n l draws -> x ∈ l.
Proof.
  intros H Hx. destruct (pick_Permutation n l draws H) as (rest & Hp & _).
  rewrite Hp. apply elem_of_app. now left.
Qed.

End PickFacts.

Section LabelFacts.

Lemma label_union_nil_l (a : list string) : label_union [] a = a.
Proof.
  unfold label_union. simpl. induction a as [|x a IH]; [reflexivity|].
  rewrite filter_cons_True by (intros H; inversion H). now rewrite IH.
Qed.

Lemma elem_of_label_union (a b : list string) x :
  x ∈ label_union a b <-> x ∈ a \/ x ∈ b.
Proof.
  unfold label_union. rewrite elem_of_app, list_elem_of_filter.
  destruct (decide (x ∈ a)); tauto.
Qed.

Lemma elem_of_fold_label_union (ls : list (list string)) : forall acc x,
  x ∈ fold_left label_union ls acc <-> x ∈ acc \/ exists l, l ∈ ls /\ x ∈ l.
Proof.
  induction ls as [|l ls IH]; intros acc x; simpl.
  - split; [now left|]. intros [H|(l & Hl & _)]; [assumption|inversion Hl].
  - rewrite IH, elem_of_label_union. split.
    + intros [[H|H]|(l' & Hl' & Hx)].
      * now left.
      * right. exists l. split; [now left|assumption].
      * right. exists l'. split; [now right|assumption].
    + intros [H|(l' & Hl' & Hx)]; [now left; left|].
      apply elem_of_cons in Hl' as [->|Hl'].
      * left. now right.
      * right. now exists l'.
Qed.

Lemma dict_get_Some_key k (d : Item) v :
  dict_get k d = Some v -> k ∈ dict_keys d.
Proof.
  induction d as [|[k' v'] d IH]; simpl; [discriminate|].
  destruct (decide (k' = k)) as [->|Hne]; intros H.
  - now left.
  - right. now apply IH.
Qed.

Lemma dict_get_None_key k (d : Item) :
  k ∉ dict_keys d -> dict_get k d = None.
Proof.
  induction d as [|[k' v'] d IH]; simpl; [reflexivity|].
  intros Hn. destruct (decide (k' = k)) as [->|Hne].
  - exfalso. apply Hn. now left.
  - apply IH. intros H. apply Hn. now right.
Qed.

(** A dict from which the keys in [labels] were removed has none of them. *)
Lemma dict_get_dropped (labels : list string) (d : Item) k :
  k ∈ labels ->
  dict_get k (filter (fun kv : string * Value => kv.1 ∉ labels) d) = None.
Proof.
  intros Hk. apply dict_get_None_key. unfold dict_keys.
  intros Hin. apply list_elem_of_In in Hin.
  apply in_map_iff in Hin as ([k' v] & Hfst & Hin). simpl in Hfst. subst k'.
  apply list_elem_of_In, list_elem_of_filter in Hin as [Hn _].
  now apply Hn.
Qed.

Lemma columns_of_items (items : list Item) x :
  x ∈ columns (Pandas.DataFrame_of items) <->
  exists it, it ∈ items /\ x ∈ dict_keys it.
Proof.
  unfold Pandas.DataFrame_of. simpl. rewrite elem_of_fold_label_union.
  split.
  - intros [H|(l & Hl & Hx)]; [inversion H|].
    apply list_elem_of_In, in_map_iff in Hl as (it & <- & Hit).
    exists it. split; [now apply list_elem_of_In|assumption].
  - intros (it & Hit & Hx). right. exists (dict_keys it). split; [|assumption].
    apply list_elem_of_In, in_map_iff. exists it.
    split; [reflexivity|now apply list_elem_of_In].
Qed.

End LabelFacts.

(* ===================================================================== *)
(** ** What a computation leaves untouched *)
(* ===================================================================== *)

Section Frames.
Context {X : Type} (f : World -> X).

Lemma preserves_ret {A} (a : A) : preserves f (ret a).
Proof. intros w. reflexivity. Qed.

Lemma preserves_raise {A} e : preserves f (@raise A e).
Proof. intros w. reflexivity. Qed.

Lemma preserves_lift {A} (r : result A) : preserves f (lift r).
Proof. destruct r; intros w; reflexivity. Qed.

Lemma preserves_bind {A B} (m : M A) (k : A -> M B) :
  preserves f m -> (forall a, preserves f (k a)) -> preserves f (bind m k).
Proof.
  intros Hm Hk w. unfold bind. specialize (Hm w).
  destruct (m w) as [a w1|e w1]; simpl in *; [|assumption].
  now rewrite Hk.
Qed.

Lemma preserves_for_range_from body start n :
  (forall k, preserves f (body k)) -> preserves f (for_range_from body start n).
Proof.
  intros Hb. revert start. induction n as [|n IH]; intros start; simpl.
  - apply preserves_ret.
  - apply preserves_bind; [apply Hb|]. intros _. apply IH.
Qed.

Lemma preserves_union_loop single data values :
  (forall v, preserves f (single v)) ->
  preserves f (AgroDatabase.union_loop single data values).
Proof.
  intros Hs. revert data.
  induction values as [|v values IH]; intros data;
    cbn [AgroDatabase.union_loop].
  - apply preserves_ret.
  - apply preserves_bind; [apply Hs|]. intros r. destruct data as [d|].
    + apply preserves_bind; [apply preserves_lift|]. intros d'. apply IH.
    + apply IH.
Qed.

Lemma preserves_union_query single values :
  (forall v, preserves f (single v)) ->
  preserves f (AgroDatabase.union_query single values).
Proof.
  intros Hs. apply preserves_bind; [now apply preserves_union_loop|].
  intros [d|]; [apply preserves_ret|apply preserves_raise].
Qed.

End Frames.

(** Which operation touches which component. *)
Lemma query_items_world db c q w :
  world_of (AgroDatabase.query_items db c q w) = with_read (c, q) w.
Proof. unfold AgroDatabase.query_items. now destruct (get_container c db). Qed.

Lemma select_where_cases db c q w :
  match get_container c db with
  | None =>
      AgroDatabase.select_where db c q w
      = Raise CosmosResourceNotFoundError (with_read (c, q) w)
  | Some items =>
      let df := Pandas.DataFrame_of (AgroDatabase.run_query q items) in
      AgroDatabase.select_where db c q w
      = lift (if negb (Nat.eqb (Pandas.shape df).1 0)
                 && negb (Nat.eqb (Pandas.shape df).2 0)
              then Pandas.drop AgroDatabase.internal_fields df
              else Ok df) (with_read (c, q) w)
  end.
Proof.
  unfold AgroDatabase.select_where, AgroDatabase.query_items, bind.
  destruct (get_container c db) as [items|]; [|reflexivity].
  cbv zeta. destruct (negb _ && negb _); reflexivity.
Qed.

Lemma select_where_world db c q w :
  world_of (AgroDatabase.select_where db c q w) = with_read (c, q) w.
Proof.
  pose proof (select_where_cases db c q w) as H.
  destruct (get_container c db) as [items|]; cbv zeta in H; rewrite H;
    [|reflexivity].
  destruct (if _ : bool then _ else _); reflexivity.
Qed.

Lemma single_is_select s db v :
  AgroDatabase.single s db v
  = AgroDatabase.select_where db (AgroDatabase.container_of s)
      (AgroDatabase.query_of s v).
Proof. destruct s; reflexivity. Qed.

Lemma plural_is_union s db values :
  AgroDatabase.plural s db values
  = AgroDatabase.union_query (AgroDatabase.single s db) values.
Proof. destruct s; reflexivity. Qed.

Lemma single_world s db v w :
  world_of (AgroDatabase.single s db v w) = with_read (read_of s v) w.
Proof. rewrite single_is_select. apply select_where_world. Qed.

Lemma preserves_single {X} (f : World -> X) s db v :
  (forall r w, f (with_read r w) = f w) ->
  preserves f (AgroDatabase.single s db v).
Proof. intros Hf w. now rewrite single_world. Qed.

Lemma preserves_np_sample {X A} (f : World -> X) n (l : list A) :
  (forall k w, f (with_draws k w) = f w) -> preserves f (np_sample n l).
Proof.
  intros Hf w. unfold np_sample. destruct (Pandas.sample n l (rng w)); simpl;
    [apply Hf|reflexivity].
Qed.

Lemma preserves_sample_brands {X} (f : World -> X) py_str df :
  (forall k w, f (with_draws k w) = f w) ->
  preserves f (Model.sample_brands py_str df).
Proof.
  intros Hf. unfold Model.sample_brands.
  apply preserves_bind; [apply preserves_lift|]. intros df'.
  apply preserves_bind; [apply preserves_lift|]. intros brands.
  apply preserves_bind; [now apply preserves_np_sample|]. intros picked.
  apply preserves_ret.
Qed.

(* ===================================================================== *)
(** ** Single-value queries *)
(* ===================================================================== *)

Section SingleQuery.
Import AgroDatabase.

Lemma drop_Ok labels df df' :
  Pandas.drop labels df = Ok df' ->
  columns df' = filter (fun c => c ∉ labels) (columns df) /\
  rows df' = map (filter (fun kv : string * Value => kv.1 ∉ labels)) (rows df).
Proof.
  unfold Pandas.drop. destruct (Pandas.missing_labels labels (columns df));
    [|discriminate].
  intros [= <-]. split; reflexivity.
Qed.

Lemma missing_labels_nil labels cols :
  (forall x, x ∈ labels -> x ∈ cols) -> Pandas.missing_labels labels cols = [].
Proof.
  unfold Pandas.missing_labels. induction labels as [|x labels IH]; intros H.
  - reflexivity.
  - rewrite filter_cons_False; [|intros Hn; apply Hn, H; now left].
    apply IH. intros y Hy. apply H. now right.
Qed.

Lemma elem_of_run_query q items it :
  it ∈ run_query q items -> matches q it = true /\ it ∈ items.
Proof.
  unfold run_query. intros H.
  assert (Hf : it ∈ List.filter (matches q) items).
  { destruct (q_limit q) as [n|]; [|assumption].
    rewrite <- (take_drop n (List.filter (matches q) items)).
    apply elem_of_app. now left. }
  apply list_elem_of_In, filter_In in Hf as [Hin Hm].
  split; [assumption|now apply list_elem_of_In].
Qed.

Lemma matches_field q it : matches q it = true -> q_field q ∈ dict_keys it.
Proof.
  unfold matches. destruct (dict_get (q_field q) it) as [v|] eqn:E;
    [|discriminate].
  intros _. eapply dict_get_Some_key, E.
Qed.

(** Either the frame of the hits went through [drop], or it had no row
    or no column and was returned as built. *)
Lemma select_where_Ret db c q w df w' :
  select_where db c q w = Ret df w' ->
  exists items, get_container c db = Some items /\ w' = with_read (c, q) w /\
    let built := Pandas.DataFrame_of (run_query q items) in
    (rows built <> [] /\ columns built <> [] /\
       Pandas.drop internal_fields built = Ok df) \/
    ((rows built = [] \/ columns built = []) /\ df = built).
Proof.
  intros H. pose proof (select_where_cases db c q w) as Hc.
  destruct (get_container c db) as [items|]; cbv zeta in Hc;
    rewrite Hc in H; [|discriminate].
  exists items. split; [reflexivity|]. clear Hc. cbv zeta.
  generalize dependent (Pandas.DataFrame_of (run_query q items)).
  intros [cols [|r rs]] H.
  - injection H as <- <-. split; [reflexivity|].
    right. split; [now left|reflexivity].
  - destruct cols as [|x xs].
    + injection H as <- <-. split; [reflexivity|].
      right. split; [now right|reflexivity].
    + cbn [Pandas.shape rows columns length fst snd Nat.eqb negb andb] in H.
      destruct (Pandas.drop internal_fields (mkFrame (x :: xs) (r :: rs)))
        as [d|e] eqn:Ed; [|discriminate].
      injection H as <- <-. split; [reflexivity|].
      left. repeat split; discriminate.
Qed.

Lemma select_where_domain db c q w df w' :
  select_where db c q w = Ret df w' -> only_domain_attributes df.
Proof.
  intros H. apply select_where_Ret in H as (items & _ & _ & H). cbv zeta in H.
  intros f Hf. destruct H as [(_ & _ & Hd)|[Hempty ->]].
  - apply drop_Ok in Hd as [Hc Hr]. split.
    + rewrite Hc. intros Hin. apply list_elem_of_filter in Hin as [Hn _].
      now apply Hn.
    + intros r Hin. rewrite Hr in Hin.
      apply list_elem_of_In, in_map_iff in Hin as (r0 & <- & _).
      now apply dict_get_dropped.
  - assert (Hnone : forall it, it ∈ run_query q items -> f ∉ dict_keys it).
    { intros it Hit Hk. destruct Hempty as [He|He].
      - simpl in He. rewrite He in Hit. inversion Hit.
      - assert (Hx : f ∈ columns (Pandas.DataFrame_of (run_query q items)))
          by (apply columns_of_items; now exists it).
        rewrite He in Hx. inversion Hx. }
    split.
    + intros Hin. apply columns_of_items in Hin as (it & Hit & Hk).
      now apply (Hnone it).
    + intros r Hin. apply dict_get_None_key. now apply Hnone.
Qed.


(** A frame with rows has the queried attribute among its columns. *)
Lemma select_where_field db c q w df w' :
  select_where db c q w = Ret df w' ->
  q_field q ∉ internal_fields ->
  rows df <> [] -> q_field q ∈ columns df.
Proof.
  intros H Hq Hrows. apply select_where_Ret in H as (items & _ & _ & H).
  cbv zeta in H.
  assert (Hhits : run_query q items <> []).
  { destruct H as [(Hr & _)|[_ ->]]; [exact Hr|exact Hrows]. }
  destruct (run_query q items) as [|it hits] eqn:Eh; [contradiction|].
  assert (Hit : it ∈ run_query q items) by (rewrite Eh; now left).
  pose proof (elem_of_run_query _ _ _ Hit) as [Hm _].
  assert (Hcol : q_field q ∈ columns (Pandas.DataFrame_of (run_query q items))).
  { apply columns_of_items. exists it. split; [assumption|].
    now apply matches_field. }
  rewrite Eh in Hcol.
  destruct H as [(_ & _ & Hd)|[[He|He] ->]].
  - apply drop_Ok in Hd as [Hc _]. rewrite Hc.
    apply list_elem_of_filter. split; assumption.
  - discriminate He.
  - rewrite He in Hcol. inversion Hcol.
Qed.

(** On a store whose documents carry the fields it adds, the read of an
    existing container returns. *)
Lemma select_where_returns db c q w items :
  get_container c db = Some items ->
  store_fields_present items ->
  returns (select_where db c q w).
Proof.
  intros Hg Hwf. pose proof (select_where_cases db c q w) as Hc.
  rewrite Hg in Hc. cbv zeta in Hc. rewrite Hc. clear Hc.
  set (built := Pandas.DataFrame_of (run_query q items)).
  destruct (negb (Nat.eqb (Pandas.shape built).1 0)
            && negb (Nat.eqb (Pandas.shape built).2 0)) eqn:E;
    [|exact I].
  unfold Pandas.drop. rewrite missing_labels_nil; [exact I|].
  intros f Hf. apply andb_true_iff in E as [E _].
  unfold Pandas.shape in E. simpl in E.
  destruct (run_query q items) as [|it hits] eqn:Eh; [discriminate|].
  subst built. rewrite <- Eh. apply columns_of_items.
  assert (Hit : it ∈ run_query q items) by (rewrite Eh; now left).
  exists it. split; [assumption|].
  apply elem_of_run_query in Hit as [_ Hin]. now apply Hwf.
Qed.

End SingleQuery.

(* ===================================================================== *)
(** ** Multi-value queries *)
(* ===================================================================== *)

Section MultiQuery.
Import AgroDatabase.

Variable single : string -> M DataFrame.

(** Once a first frame [d] is there, the loop adds the columns and the
    rows of the frames still to come. *)
Lemma union_loop_Some values : forall d w,
  union_loop single (Some d) values w
  = (let* frames := mapM single values in
     ret (Some (mkFrame (fold_left label_union (map columns frames) (columns d))
                        (rows d ++ List.concat (map rows frames))))) w.
Proof.
  induction values as [|v values IH]; intros d w.
  - unfold bind. simpl. unfold ret. now rewrite app_nil_r; destruct d.
  - cbn [union_loop mapM]. unfold bind.
    destruct (single v w) as [r w1|e w1]; [|reflexivity].
    cbn -[label_union union_loop mapM]. rewrite IH. unfold bind.
    destruct (mapM single values w1) as [frames w2|e w2]; [|reflexivity].
    cbn -[label_union]. rewrite label_union_nil_l.
    now rewrite app_nil_r, <- app_assoc.
Qed.

Lemma union_query_refines values w :
  values <> [] -> union_query single values w = union_spec single values w.
Proof.
  destruct values as [|v values]; [contradiction|]. intros _.
  unfold union_query, union_spec. cbn [union_loop mapM]. unfold bind.
  destruct (single v w) as [r w1|e w1]; [|reflexivity].
  rewrite union_loop_Some. unfold bind.
  destruct (mapM single values w1) as [frames w2|e w2]; [|reflexivity].
  cbn -[label_union Pandas.drop_duplicates]. now rewrite label_union_nil_l.
Qed.

Lemma union_query_nil w : union_query single [] w = Raise AttributeError w.
Proof. reflexivity. Qed.

Lemma mapM_Forall (P : DataFrame -> Prop) values : forall w frames w',
  (forall v w0 df w1, single v w0 = Ret df w1 -> P df) ->
  mapM single values w = Ret frames w' -> Forall P frames.
Proof.
  induction values as [|v values IH]; intros w frames w' HP H.
  - injection H as <- <-. constructor.
  - cbn [mapM] in H. unfold bind in H.
    destruct (single v w) as [r w1|e w1] eqn:E1; [|discriminate].
    destruct (mapM single values w1) as [rs w2|e w2] eqn:E2; [|discriminate].
    injection H as <- <-. constructor; [eapply HP, E1|eapply IH; eauto].
Qed.

End MultiQuery.

Lemma drop_duplicates_no_duplicate df :
  (rows df <> [] -> columns df <> []) ->
  no_duplicate_rows (Pandas.drop_duplicates df).
Proof.
  intros Hinv. unfold no_duplicate_rows, Pandas.drop_duplicates, Pandas.empty.
  destruct df as [cols rws]. cbn [rows columns] in *.
  destruct rws as [|r rws]; [constructor|].
  destruct cols as [|c cols]; [exfalso; now apply Hinv|].
  cbn [rows columns]. apply keep_first_NoDup.
Qed.

Lemma concat_columns frames whole field :
  Pandas.concat frames = Ok whole ->
  Forall (fun df => rows df <> [] -> field ∈ columns df) frames ->
  rows whole <> [] -> columns whole <> [].
Proof.
  unfold Pandas.concat. intros Hc Hall Hrows.
  assert (whole = mkFrame (fold_left label_union (map columns frames) [])
                          (List.concat (map rows frames))) as ->
    by (destruct frames; [discriminate|now injection Hc]).
  clear Hc. cbn [rows columns] in *.
  assert (Hex : exists df, df ∈ frames /\ rows df <> []).
  { induction frames as [|d frames IH]; [now contradiction Hrows|].
    destruct (rows d) as [|r rs] eqn:Er.
    - simpl in Hrows. rewrite Er in Hrows. simpl in Hrows.
      inversion Hall; subst. destruct (IH H2 Hrows) as (df & Hin & Hne).
      exists df. split; [now right|assumption].
    - exists d. split; [now left|]. rewrite Er. discriminate. }
  destruct Hex as (df & Hin & Hne).
  assert (Hf : field ∈ fold_left label_union (map columns frames) []).
  { apply elem_of_fold_label_union. right. exists (columns df). split.
    - apply list_elem_of_In, in_map, list_elem_of_In, Hin.
    - rewrite Forall_forall in Hall. now apply Hall. }
  intros Hnil. rewrite Hnil in Hf. inversion Hf.
Qed.

Lemma query_of_field s v : q_field (AgroDatabase.query_of s v) ∉ AgroDatabase.internal_fields.
Proof.
  destruct s; simpl; intros H;
    repeat (apply elem_of_cons in H as [H|H]; [discriminate|]); inversion H.
Qed.

Lemma query_of_field_fixed s v v' :
  q_field (AgroDatabase.query_of s v) = q_field (AgroDatabase.query_of s v').
Proof. destruct s; reflexivity. Qed.

Lemma single_field s db v w df w' :
  AgroDatabase.single s db v w = Ret df w' ->
  rows df <> [] -> q_field (AgroDatabase.query_of s "") ∈ columns df.
Proof.
  rewrite single_is_select. intros H Hr.
  rewrite (query_of_field_fixed s "" v).
  eapply select_where_field; eauto. apply query_of_field.
Qed.

Lemma plural_no_duplicate s db values w df w' :
  AgroDatabase.plural s db values w = Ret df w' -> no_duplicate_rows df.
Proof.
  rewrite plural_is_union. destruct values as [|v values]; [discriminate|].
  rewrite union_query_refines by discriminate.
  unfold union_spec, bind.
  destruct (mapM _ _ w) as [frames w1|e w1] eqn:Em; [|discriminate].
  destruct (Pandas.concat frames) as [whole|e] eqn:Ec; [|discriminate].
  simpl. intros [= <- <-]. apply drop_duplicates_no_duplicate.
  eapply concat_columns; [exact Ec|].
  eapply mapM_Forall; [|exact Em].
  intros v0 w0 df0 w2 H0. now apply (single_field s db v0 w0 df0 w2).
Qed.

Lemma concat_domain frames whole :
  Forall only_domain_attributes frames ->
  Pandas.concat frames = Ok whole -> only_domain_attributes whole.
Proof.
  unfold Pandas.concat. intros Hall Hc.
  assert (whole = mkFrame (fold_left label_union (map columns frames) [])
                          (List.concat (map rows frames))) as ->
    by (destruct frames; [discriminate|now injection Hc]).
  clear Hc. rewrite Forall_forall in Hall. intros f Hf. cbn [rows columns]. split.
  - intros Hin. apply elem_of_fold_label_union in Hin as [Hin|(l & Hl & Hin)];
      [inversion Hin|].
    apply list_elem_of_In, in_map_iff in Hl as (df & <- & Hdf).
    apply list_elem_of_In in Hdf. now apply (Hall df Hdf f Hf).
  - intros r Hr. apply list_elem_of_In, in_concat in Hr as (l & Hl & Hr).
    apply in_map_iff in Hl as (df & <- & Hdf). apply list_elem_of_In in Hdf.
    apply (Hall df Hdf f Hf). now apply list_elem_of_In.
Qed.

Lemma drop_duplicates_domain df :
  only_domain_attributes df -> only_domain_attributes (Pandas.drop_duplicates df).
Proof.
  intros H f Hf. unfold Pandas.drop_duplicates.
  destruct (Pandas.empty df); [now apply H|]. cbn [rows columns].
  destruct (H f Hf) as [Hc Hr]. split; [assumption|].
  intros r Hin. apply keep_first_elem in Hin as [Hin _]. now apply Hr.
Qed.

Lemma plural_domain s db values w df w' :
  AgroDatabase.plural s db values w = Ret df w' -> only_domain_attributes df.
Proof.
  rewrite plural_is_union. destruct values as [|v values]; [discriminate|].
  rewrite union_query_refines by discriminate.
  unfold union_spec, bind.
  destruct (mapM _ _ w) as [frames w1|e w1] eqn:Em; [|discriminate].
  destruct (Pandas.concat frames) as [whole|e] eqn:Ec; [|discriminate].
  simpl. intros [= <- <-]. apply drop_duplicates_domain.
  eapply concat_domain; [|exact Ec].
  eapply mapM_Forall; [|exact Em].
  intros v0 w0 df0 w2 H0. rewrite single_is_select in H0.
  eapply select_where_domain, H0.
Qed.


(* ===================================================================== *)
(** ** Record store: the properties *)
(* ===================================================================== *)

(** C3. The claim: a multi-value query called with an empty list of values
    returns an empty result set and does not raise. The code does raise:
    with no value the loop never assigns [data], and [data.drop_duplicates]
    on [None] is an [AttributeError], for each of the six plural functions,
    on every store. *)
Theorem C3_empty_value_list_raises s db w :
  AgroDatabase.plural s db [] w = Raise AttributeError w.
Proof. destruct s; reflexivity. Qed.

(** C6. Every frame returned by a single-value query, and so every frame
    returned by a multi-value query, shows no storage-internal field
    (id, _rid, _self, _etag, _attachments, _ts): none is a column and no row
    has a value for one. This holds in particular when the frame has rows. *)
Theorem C6_internal_fields_stripped s db w df w' :
  (forall v, AgroDatabase.single s db v w = Ret df w' ->
             rows df <> [] -> only_domain_attributes df) /\
  (forall values, AgroDatabase.plural s db values w = Ret df w' ->
                  rows df <> [] -> only_domain_attributes df).
Proof.
  split.
  - intros v H _. rewrite single_is_select in H. eapply select_where_domain, H.
  - intros values H _. eapply plural_domain, H.
Qed.

(** C7. For a non-empty list of values a multi-value query is the
    single-value query run once per value in order, the frames
    concatenated, and exact duplicate rows dropped across the whole; the
    frame it returns has no two rows equal on every column. *)
Theorem C7_multi_value_is_union_then_dedup s db values w :
  values <> [] ->
  AgroDatabase.plural s db values w
    = union_spec (AgroDatabase.single s db) values w /\
  (forall df w', AgroDatabase.plural s db values w = Ret df w' ->
                 no_duplicate_rows df).
Proof.
  intros Hne. split.
  - rewrite plural_is_union. now apply union_query_refines.
  - intros df w'. apply plural_no_duplicate.
Qed.


Lemma C6_witness :
  exists df w',
    AgroDatabase.single AgroDatabase.FormulatedByCommonName
      Fixture.soy_db "lagarta" Fixture.world0 = Ret df w' /\
    rows df <> [] /\ only_domain_attributes df.
Proof.
  eexists _, _. split; [vm_compute; reflexivity|].
  split; [discriminate|].
  eapply (proj1 (C6_internal_fields_stripped
                   AgroDatabase.FormulatedByCommonName Fixture.soy_db
                   Fixture.world0 _ _) "lagarta");
    [vm_compute; reflexivity|discriminate].
Defined.

Lemma C7_witness :
  ["Herbicida"; "cida"] <> [] /\
  AgroDatabase.plural AgroDatabase.TechnicalByClass Fixture.soy_db
    ["Herbicida"; "cida"] Fixture.world0
  = union_spec (AgroDatabase.single AgroDatabase.TechnicalByClass Fixture.soy_db)
      ["Herbicida"; "cida"] Fixture.world0 /\
  exists df w',
    AgroDatabase.plural AgroDatabase.TechnicalByClass Fixture.soy_db
      ["Herbicida"; "cida"] Fixture.world0 = Ret df w' /\
    length (rows df) = 3 /\ no_duplicate_rows df.
Proof.
  assert (Hne : ["Herbicida"; "cida"] <> []) by discriminate.
  destruct (C7_multi_value_is_union_then_dedup AgroDatabase.TechnicalByClass
              Fixture.soy_db ["Herbicida"; "cida"] Fixture.world0 Hne)
    as [Heq Hnd].
  split; [exact Hne|]. split; [exact Heq|].
  eexists _, _. split; [vm_compute; reflexivity|].
  split; [reflexivity|]. eapply Hnd. vm_compute; reflexivity.
Defined.


(* ===================================================================== *)
(** ** Running a computation step by step *)
(* ===================================================================== *)

Lemma bind_Ret {A B} (m : M A) (k : A -> M B) w a w1 :
  m w = Ret a w1 -> bind m k w = k a w1.
Proof. intros H. unfold bind. now rewrite H. Qed.

Lemma bind_Raise {A B} (m : M A) (k : A -> M B) w e w1 :
  m w = Raise e w1 -> bind m k w = Raise e w1.
Proof. intros H. unfold bind. now rewrite H. Qed.

Lemma bind_assoc {A B C} (m : M A) (k : A -> M B) (h : B -> M C) w :
  bind (bind m k) h w = bind m (fun a => bind (k a) h) w.
Proof. unfold bind. now destruct (m w). Qed.

(** After a first step, steps that leave [f] alone do not show in [f]. *)
Lemma bind_preserved {A B X} (f : World -> X) (m : M A) (k : A -> M B) w :
  (forall a, preserves f (k a)) ->
  f (world_of (bind m k w)) = f (world_of (m w)).
Proof.
  intros Hk. unfold bind. destruct (m w) as [a w1|e w1]; [apply Hk|reflexivity].
Qed.

Lemma returns_bind {A B} (m : M A) (k : A -> M B) w :
  returns (bind m k w) -> returns (m w).
Proof. unfold bind. now destruct (m w). Qed.

Lemma with_heap_same w : with_heap (heap w) w = w.
Proof. now destruct w. Qed.

Lemma with_heap_twice h h' w : with_heap h (with_heap h' w) = with_heap h w.
Proof. reflexivity. Qed.

Lemma take_map {A B} (g : A -> B) n (l : list A) :
  take n (map g l) = map g (take n l).
Proof. revert n. induction l; intros [|n]; simpl; congruence. Qed.

(* ===================================================================== *)
(** ** Lookup service: the loop over the caller's list *)
(* ===================================================================== *)

Section NormalizeLoop.
Variable lower : string -> string.
Variable l : nat.

(** From position [start] on, the loop replaces each element by its
    normalized form, in the list object itself. *)
Lemma normalize_loop n : forall start w xs,
  heap w !! l = Some xs ->
  start + n = length xs ->
  for_range_from (Model.normalize_at lower l) start n w
  = Ret tt (with_heap
              (<[l := take start xs
                       ++ map (Model.normalize lower) (drop start xs)]>
                 (heap w)) w).
Proof.
  induction n as [|n IH]; intros start w xs Hl Hlen.
  - simpl. unfold ret. rewrite take_ge, drop_ge by lia. simpl.
    now rewrite app_nil_r, list_insert_id, with_heap_same.
  - cbn [for_range_from].
    assert (Hs : start < length xs) by lia.
    destruct (lookup_lt_is_Some_2 xs start Hs) as [x Hx].
    set (xs1 := <[start := Model.normalize lower x]> xs).
    set (w1 := with_heap (<[l := xs1]> (heap w)) w).
    assert (Hbody : Model.normalize_at lower l start w = Ret tt w1).
    { unfold Model.normalize_at. erewrite bind_Ret;
        [|unfold PyList.getitem; rewrite Hl, Hx; reflexivity].
      unfold PyList.setitem. rewrite Hl.
      destruct (decide (start < length xs)); [reflexivity|contradiction]. }
    rewrite (bind_Ret _ _ _ _ _ Hbody).
    assert (Hl1 : heap w1 !! l = Some xs1).
    { unfold w1. simpl. apply list_lookup_insert_eq.
      eapply lookup_lt_Some, Hl. }
    rewrite (IH (S start) w1 xs1 Hl1)
      by (unfold xs1; rewrite length_insert; lia).
    unfold w1. rewrite with_heap_twice. simpl heap.
    rewrite list_insert_insert_eq. do 3 f_equal.
    unfold xs1.
    rewrite (take_S_r _ _ (Model.normalize lower x))
      by (apply list_lookup_insert_eq; lia).
    rewrite take_insert_ge, drop_insert_lt by lia.
    rewrite (drop_S xs x start Hx). simpl. now rewrite <- app_assoc.
Qed.

Lemma normalize_all w xs :
  heap w !! l = Some xs ->
  for_range (Model.normalize_at lower l) (length xs) w
  = Ret tt (with_heap (<[l := map (Model.normalize lower) xs]> (heap w)) w).
Proof.
  intros Hl. unfold for_range.
  now rewrite (normalize_loop (length xs) 0 w xs Hl eq_refl).
Qed.

End NormalizeLoop.

(* ===================================================================== *)
(** ** Lookup service: which reads are sent, what is left untouched *)
(* ===================================================================== *)

Section LookupFacts.
Import AgroDatabase Model.
Variable py_str : list Value -> string.
Variable lower : string -> string.
Variable db : Database.

Lemma union_loop_queries s values : forall data w,
  exists k, k <= length values /\
    queries (world_of (union_loop (single s db) data values w))
    = queries w ++ map (read_of s) (take k values) /\
    (returns (union_loop (single s db) data values w) -> k = length values).
Proof.
  induction values as [|v values IH]; intros data w.
  - exists 0. simpl. rewrite app_nil_r. auto.
  - cbn [union_loop].
    pose proof (single_world s db v w) as Hw.
    destruct (single s db v w) as [r w1|e w1] eqn:E; simpl in Hw; subst w1.
    + rewrite (bind_Ret _ _ _ _ _ E).
      assert (Hk : exists k, k <= length values /\
                queries (world_of
                  (match data with
                   | Some d =>
                       let* d' := lift (Pandas.concat [d; r]) in
                       union_loop (single s db) (Some d') values
                   | None => union_loop (single s db) (Some r) values
                   end (with_read (read_of s v) w)))
                = queries (with_read (read_of s v) w)
                    ++ map (read_of s) (take k values) /\
                (returns
                   (match data with
                    | Some d =>
                        let* d' := lift (Pandas.concat [d; r]) in
                        union_loop (single s db) (Some d') values
                    | None => union_loop (single s db) (Some r) values
                    end (with_read (read_of s v) w)) -> k = length values)).
      { destruct data as [d|]; [|apply IH].
        erewrite bind_Ret by reflexivity. apply IH. }
      destruct Hk as (k & Hle & Hq & Hr). exists (S k).
      split; [simpl; lia|]. split.
      * rewrite Hq. simpl. now rewrite <- app_assoc.
      * intros H. simpl. f_equal. now apply Hr.
    + rewrite (bind_Raise _ _ _ _ _ E). exists 1.
      split; [simpl; lia|]. split; [|intros []].
      reflexivity.
Qed.

Lemma plural_queries s values w :
  exists k, k <= length values /\
    queries (world_of (plural s db values w))
    = queries w ++ map (read_of s) (take k values) /\
    (returns (plural s db values w) -> k = length values).
Proof.
  rewrite plural_is_union. unfold union_query.
  destruct (union_loop_queries s values None w) as (k & Hle & Hq & Hr).
  exists k. split; [assumption|]. split.
  - rewrite bind_preserved; [assumption|].
    intros [d|]; [apply preserves_ret|apply preserves_raise].
  - intros H. apply Hr. eapply returns_bind, H.
Qed.

Lemma common_str_steps crop s w :
  get_pesticides_by_crop_and_common_name py_str lower db crop (PStr s) w
  = bind (single FormulatedByCommonName db (normalize lower s))
         (sample_brands py_str) w.
Proof. reflexivity. Qed.

Lemma scientific_str_steps crop s w :
  get_pesticides_by_crop_and_scientific_name py_str db crop (PStr s) w
  = bind (single FormulatedByCientificName db s) (sample_brands py_str) w.
Proof. reflexivity. Qed.

(** With a list, the common-name lookup first rewrites the list object,
    then queries with what the object now holds. *)
Lemma common_list_steps crop l names w :
  heap w !! l = Some names ->
  get_pesticides_by_crop_and_common_name py_str lower db crop (PList l) w
  = bind (plural FormulatedByCommonName db (map (normalize lower) names))
         (sample_brands py_str)
         (with_heap (<[l := map (normalize lower) names]> (heap w)) w).
Proof.
  intros Hl. unfold get_pesticides_by_crop_and_common_name.
  rewrite !bind_assoc.
  erewrite bind_Ret by (unfold PyList.len; rewrite Hl; reflexivity).
  rewrite bind_assoc.
  rewrite (bind_Ret _ _ _ _ _ (normalize_all lower l w names Hl)).
  rewrite bind_assoc.
  erewrite bind_Ret; [reflexivity|].
  unfold PyList.elements. simpl heap.
  rewrite list_lookup_insert_eq by (eapply lookup_lt_Some, Hl). reflexivity.
Qed.

Lemma scientific_list_steps crop l names w :
  heap w !! l = Some names ->
  get_pesticides_by_crop_and_scientific_name py_str db crop (PList l) w
  = bind (plural FormulatedByCientificName db names) (sample_brands py_str) w.
Proof.
  intros Hl. unfold get_pesticides_by_crop_and_scientific_name.
  rewrite bind_assoc.
  erewrite bind_Ret by (unfold PyList.elements; rewrite Hl; reflexivity).
  reflexivity.
Qed.

Lemma preserves_plural {X} (f : World -> X) s values :
  (forall r w, f (with_read r w) = f w) -> preserves f (plural s db values).
Proof.
  intros Hf w. rewrite plural_is_union. apply preserves_union_query.
  intros v. now apply preserves_single.
Qed.

End LookupFacts.

(* ===================================================================== *)
(** ** Lookup service: the properties *)
(* ===================================================================== *)

(** C1. The claim: a lookup whose match set is empty returns an explicit
    empty-result signal and never raises. The code raises: when the
    container holds no document that matches, the frame has no column, and
    [df['MARCA_COMERCIAL']] is a [KeyError], in both lookups. *)
Theorem C1_empty_match_raises py_str lower db crop s w items :
  get_container "produtosformulados" db = Some items ->
  (List.filter (AgroDatabase.matches
                  (mkQuery "PRAGA_NOME_COMUM" Like (Model.normalize lower s) (Some 1000)))
               items = [] ->
   Model.get_pesticides_by_crop_and_common_name py_str lower db crop (PStr s) w
   = Raise (KeyError ["MARCA_COMERCIAL"])
       (with_read ("produtosformulados",
                   mkQuery "PRAGA_NOME_COMUM" Like (Model.normalize lower s) (Some 1000))
          w)) /\
  (List.filter (AgroDatabase.matches
                  (mkQuery "PRAGA_NOME_CIENTIFICO" Like s (Some 1000)))
               items = [] ->
   Model.get_pesticides_by_crop_and_scientific_name py_str db crop (PStr s) w
   = Raise (KeyError ["MARCA_COMERCIAL"])
       (with_read ("produtosformulados",
                   mkQuery "PRAGA_NOME_CIENTIFICO" Like s (Some 1000)) w)).
Proof.
  intros Hg. split; intros Hnone.
  - pose proof (select_where_cases db "produtosformulados"
                  (mkQuery "PRAGA_NOME_COMUM" Like (Model.normalize lower s) (Some 1000))
                  w) as Hc.
    rewrite Hg in Hc. cbv zeta in Hc. unfold AgroDatabase.run_query in Hc.
    cbn [q_limit] in Hc. rewrite Hnone in Hc. simpl in Hc.
    unfold Model.get_pesticides_by_crop_and_common_name,
      AgroDatabase.get_formulated_products_by_common_prague_name.
    now rewrite (bind_Ret _ _ _ _ _ Hc).
  - pose proof (select_where_cases db "produtosformulados"
                  (mkQuery "PRAGA_NOME_CIENTIFICO" Like s (Some 1000)) w) as Hc.
    rewrite Hg in Hc. cbv zeta in Hc. unfold AgroDatabase.run_query in Hc.
    cbn [q_limit] in Hc. rewrite Hnone in Hc. simpl in Hc.
    unfold Model.get_pesticides_by_crop_and_scientific_name,
      AgroDatabase.get_formulated_products_by_cientific_prague_name.
    now rewrite (bind_Ret _ _ _ _ _ Hc).
Qed.

Lemma C1_witness :
  Model.get_pesticides_by_crop_and_common_name Fixture.repr_list PyStr.lower_ascii
    Fixture.empty_db (PStr "soja") (PStr "lagarta") Fixture.world0
  = Raise (KeyError ["MARCA_COMERCIAL"])
      (with_read ("produtosformulados",
                  mkQuery "PRAGA_NOME_COMUM" Like "lagarta" (Some 1000))
         Fixture.world0) /\
  Model.get_pesticides_by_crop_and_scientific_name Fixture.repr_list
    Fixture.empty_db (PStr "soja") (PStr "lagarta") Fixture.world0
  = Raise (KeyError ["MARCA_COMERCIAL"])
      (with_read ("produtosformulados",
                  mkQuery "PRAGA_NOME_CIENTIFICO" Like "lagarta" (Some 1000))
         Fixture.world0).
Proof.
  destruct (C1_empty_match_raises Fixture.repr_list PyStr.lower_ascii
              Fixture.empty_db (PStr "soja") "lagarta" Fixture.world0 []
              eq_refl) as [Hc Hs].
  split; [exact (Hc eq_refl)|exact (Hs eq_refl)].
Defined.

(** C2. The claim: a lookup whose match set is not empty returns at most
    five brands without duplicates. The code returns five distinct brands
    when there are at least five, and raises when there are fewer: here one
    product matches, and [sample(5)] of one brand is a [ValueError]. (Of
    [str.lower] only what it does on ASCII text is used.) *)
Theorem C2_few_brands_raise py_str lower crop :
  lowers_ascii_text lower ->
  Model.get_pesticides_by_crop_and_common_name py_str lower Fixture.soy_db crop
    (PStr "flor de poeta") Fixture.world0
  = Raise ValueError
      (with_read ("produtosformulados",
                  mkQuery "PRAGA_NOME_COMUM" Like "flor-de-poeta" (Some 1000))
         Fixture.world0) /\
  Model.get_pesticides_by_crop_and_scientific_name py_str Fixture.soy_db crop
    (PStr "Ipomoea purpurea") Fixture.world0
  = Raise ValueError
      (with_read ("produtosformulados",
                  mkQuery "PRAGA_NOME_CIENTIFICO" Like "Ipomoea purpurea" (Some 1000))
         Fixture.world0).
Proof.
  intros Hlower. split; [|vm_compute; reflexivity].
  rewrite common_str_steps. unfold Model.normalize.
  rewrite (Hlower "flor de poeta" eq_refl). vm_compute. reflexivity.
Qed.

Lemma C2_witness :
  Model.get_pesticides_by_crop_and_common_name Fixture.repr_list
    PyStr.lower_ascii Fixture.soy_db (PStr "soja") (PStr "flor de poeta")
    Fixture.world0
  = Raise ValueError
      (with_read ("produtosformulados",
                  mkQuery "PRAGA_NOME_COMUM" Like "flor-de-poeta" (Some 1000))
         Fixture.world0).
Proof.
  refine (proj1 (C2_few_brands_raise Fixture.repr_list PyStr.lower_ascii
                   (PStr "soja") _)).
  intros s _. reflexivity.
Defined.

(** C5. A common name is lower-cased, by [str.lower] whatever the name,
    and its spaces are replaced by hyphens before it reaches the store
    ("flor de poeta" becomes "flor-de-poeta", [str.lower] leaving lower-case
    ASCII text as it is): the read sent for a string, and each read sent for
    a list of names, carries the normalized name. A scientific name reaches
    the store unchanged. *)
Theorem C5_name_normalization py_str lower db crop w :
  (forall s, Model.normalize lower s = PyStr.replace_char " " "-" (lower s)) /\
  (lowers_ascii_text lower ->
   Model.normalize lower "flor de poeta" = "flor-de-poeta") /\
  (forall s,
      queries (world_of (Model.get_pesticides_by_crop_and_common_name
                           py_str lower db crop (PStr s) w))
      = queries w ++ [("produtosformulados",
                       mkQuery "PRAGA_NOME_COMUM" Like
                         (PyStr.replace_char " " "-" (lower s))
                         (Some 1000))]) /\
  (forall l names,
      heap w !! l = Some names ->
      exists k, k <= length names /\
        queries (world_of (Model.get_pesticides_by_crop_and_common_name
                             py_str lower db crop (PList l) w))
        = queries w
            ++ map (fun x => ("produtosformulados",
                              mkQuery "PRAGA_NOME_COMUM" Like
                                (PyStr.replace_char " " "-" (lower x))
                                (Some 1000)))
                   (take k names) /\
        (returns (Model.get_pesticides_by_crop_and_common_name
                    py_str lower db crop (PList l) w) -> k = length names)) /\
  (forall s,
      queries (world_of (Model.get_pesticides_by_crop_and_scientific_name
                           py_str db crop (PStr s) w))
      = queries w ++ [("produtosformulados",
                       mkQuery "PRAGA_NOME_CIENTIFICO" Like s (Some 1000))]) /\
  (forall l names,
      heap w !! l = Some names ->
      exists k, k <= length names /\
        queries (world_of (Model.get_pesticides_by_crop_and_scientific_name
                             py_str db crop (PList l) w))
        = queries w
            ++ map (fun x => ("produtosformulados",
                              mkQuery "PRAGA_NOME_CIENTIFICO" Like x (Some 1000)))
                   (take k names) /\
        (returns (Model.get_pesticides_by_crop_and_scientific_name
                    py_str db crop (PList l) w) -> k = length names)).
Proof.
  assert (Hq : forall df, preserves queries (Model.sample_brands py_str df))
    by (intros df; now apply preserves_sample_brands).
  split; [exact (normalize_replace_lower lower)|].
  split; [intros Hlower; rewrite normalize_replace_lower,
                           (Hlower "flor de poeta" eq_refl); reflexivity|].
  split; [|split; [|split]].
  - intros s. rewrite <- normalize_replace_lower, common_str_steps.
    rewrite (bind_preserved queries) by exact Hq. now rewrite single_world.
  - intros l names Hl. rewrite (common_list_steps _ _ _ _ _ _ _ Hl).
    destruct (plural_queries db AgroDatabase.FormulatedByCommonName
                (map (Model.normalize lower) names)
                (with_heap (<[l := map (Model.normalize lower) names]> (heap w)) w))
      as (k & Hle & Hqs & Hr).
    rewrite length_map in Hle, Hr.
    exists k. split; [assumption|]. split.
    + rewrite (bind_preserved queries) by exact Hq. rewrite Hqs.
      rewrite take_map, map_map. simpl queries. f_equal.
      apply map_ext. intros x. now rewrite <- normalize_replace_lower.
    + intros H. apply Hr. eapply returns_bind, H.
  - intros s. rewrite scientific_str_steps.
    rewrite (bind_preserved queries) by exact Hq. now rewrite single_world.
  - intros l names Hl. rewrite (scientific_list_steps _ _ _ _ _ _ Hl).
    destruct (plural_queries db AgroDatabase.FormulatedByCientificName names w)
      as (k & Hle & Hqs & Hr).
    exists k. split; [assumption|]. split.
    + rewrite (bind_preserved queries) by exact Hq. exact Hqs.
    + intros H. apply Hr. eapply returns_bind, H.
Qed.

Lemma C5_witness :
  Model.normalize PyStr.lower_ascii "flor de poeta" = "flor-de-poeta" /\
  exists k, k <= 2 /\
    queries (world_of (Model.get_pesticides_by_crop_and_common_name
                         Fixture.repr_list PyStr.lower_ascii Fixture.soy_db
                         (PStr "soja") (PList 0)
                         (Fixture.world_with_list
                            ["Lagarta Militar"; "lagarta do cartucho"])))
    = [("produtosformulados",
        mkQuery "PRAGA_NOME_COMUM" Like "lagarta-militar" (Some 1000));
       ("produtosformulados",
        mkQuery "PRAGA_NOME_COMUM" Like "lagarta-do-cartucho" (Some 1000))].
Proof.
  destruct (C5_name_normalization Fixture.repr_list PyStr.lower_ascii
              Fixture.soy_db (PStr "soja")
              (Fixture.world_with_list ["Lagarta Militar"; "lagarta do cartucho"]))
    as (_ & Hex & _ & Hlist & _).
  split; [apply Hex; intros s _; reflexivity|].
  destruct (Hlist 0 ["Lagarta Militar"; "lagarta do cartucho"] eq_refl)
    as (k & Hle & Hq & Hr).
  exists k. split; [exact Hle|]. rewrite Hq.
  rewrite (Hr ltac:(vm_compute; exact I)). reflexivity.
Defined.

(** The end of a lookup is: take the brands of the frame, then draw. *)
Lemma sample_brands_split py_str (frame : M DataFrame) w :
  bind frame (Model.sample_brands py_str) w
  = bind (brands_of frame) (draw_five py_str) w.
Proof.
  unfold brands_of, draw_five, Model.sample_brands.
  rewrite !bind_assoc. unfold bind.
  destruct (frame w); [|reflexivity].
  destruct (lift _ _); [|reflexivity]. reflexivity.
Qed.

(** C9. The crop has no influence: with another crop and the same pest
    name a lookup ends in the same outcome and the same world, so it sent
    the same reads; and the brands it draws from, one per brand name, are
    computed without the crop. *)
Theorem C9_crop_is_ignored py_str lower db crop1 crop2 name w :
  Model.get_pesticides_by_crop_and_common_name py_str lower db crop1 name w
  = Model.get_pesticides_by_crop_and_common_name py_str lower db crop2 name w /\
  Model.get_pesticides_by_crop_and_scientific_name py_str db crop1 name w
  = Model.get_pesticides_by_crop_and_scientific_name py_str db crop2 name w /\
  (exists brands : M (list Value), forall crop w0,
      Model.get_pesticides_by_crop_and_common_name py_str lower db crop name w0
      = bind brands (draw_five py_str) w0) /\
  (exists brands : M (list Value), forall crop w0,
      Model.get_pesticides_by_crop_and_scientific_name py_str db crop name w0
      = bind brands (draw_five py_str) w0).
Proof.
  split; [reflexivity|]. split; [reflexivity|]. split.
  - unfold Model.get_pesticides_by_crop_and_common_name.
    eexists. intros _ w0. apply sample_brands_split.
  - unfold Model.get_pesticides_by_crop_and_scientific_name.
    eexists. intros _ w0. apply sample_brands_split.
Qed.

(** C10. Called with a list of common names, the common-name lookup
    overwrites the elements of the caller's list with the normalized names
    (lower-cased by [str.lower], spaces replaced by hyphens): whether the
    call returns or raises, the list object then holds them, every other
    object is as before, and the heap has changed as soon as one name was
    not already normalized. *)
Theorem C10_caller_list_is_mutated py_str lower db crop l names w :
  heap w !! l = Some names ->
  let w' := world_of (Model.get_pesticides_by_crop_and_common_name
                        py_str lower db crop (PList l) w) in
  heap w' !! l = Some (map (Model.normalize lower) names) /\
  (forall l', l' <> l -> heap w' !! l' = heap w !! l') /\
  ((exists x, x ∈ names /\ Model.normalize lower x <> x) -> heap w' <> heap w).
Proof.
  intros Hl w'.
  assert (Hh : heap w' = <[l := map (Model.normalize lower) names]> (heap w)).
  { unfold w'. rewrite (common_list_steps _ _ _ _ _ _ _ Hl).
    rewrite (bind_preserved heap)
      by (intros df; now apply preserves_sample_brands).
    now rewrite preserves_plural. }
  assert (Hn : heap w' !! l = Some (map (Model.normalize lower) names)).
  { rewrite Hh. apply list_lookup_insert_eq. eapply lookup_lt_Some, Hl. }
  split; [exact Hn|]. split.
  - intros l' Hne. rewrite Hh. now apply list_lookup_insert_ne.
  - intros (x & Hx & Hne) Heq. rewrite Heq, Hl in Hn. injection Hn as Hn.
    apply Hne. clear -Hx Hn. induction names as [|y names IH]; [inversion Hx|].
    simpl in Hn. injection Hn as Hy Hn.
    apply elem_of_cons in Hx as [->|Hx]; [now symmetry|now apply IH].
Qed.

Lemma C10_witness :
  heap (world_of (Model.get_pesticides_by_crop_and_common_name
                    Fixture.repr_list PyStr.lower_ascii Fixture.soy_db (PStr "soja") (PList 0)
                    (Fixture.world_with_list ["Flor de Poeta"])))
  !! 0 = Some ["flor-de-poeta"].
Proof.
  exact (proj1 (C10_caller_list_is_mutated Fixture.repr_list PyStr.lower_ascii
                  Fixture.soy_db (PStr "soja") 0 ["Flor de Poeta"]
                  (Fixture.world_with_list ["Flor de Poeta"]) eq_refl)).
Defined.

(* ===================================================================== *)
(** ** Tool dispatcher *)
(* ===================================================================== *)

Section DispatcherFacts.
Import Model.
Variable py_str : list Value -> string.
Variable lower : string -> string.
Variable literal_eval : string -> result (list (string * PyLit)).
Variable db : Database.

(** Nothing but [submit_tool_outputs] sends a batch. *)
Lemma preserves_len l : preserves submitted (PyList.len l).
Proof. intros w. unfold PyList.len. now destruct (heap w !! l). Qed.

Lemma preserves_elements l : preserves submitted (PyList.elements l).
Proof. intros w. unfold PyList.elements. now destruct (heap w !! l). Qed.

Lemma preserves_normalize_at l k :
  preserves submitted (normalize_at lower l k).
Proof.
  apply preserves_bind.
  - intros w. unfold PyList.getitem. destruct (heap w !! l) as [xs|]; [|reflexivity].
    now destruct (xs !! k).
  - intros x w. unfold PyList.setitem. destruct (heap w !! l) as [xs|]; [|reflexivity].
    now destruct (decide (k < length xs)).
Qed.

Lemma preserves_common crop name :
  preserves submitted (get_pesticides_by_crop_and_common_name py_str lower db crop name).
Proof.
  unfold get_pesticides_by_crop_and_common_name.
  apply preserves_bind; [|intros df; now apply preserves_sample_brands].
  destruct name as [s|l|].
  - now apply (preserves_single submitted AgroDatabase.FormulatedByCommonName).
  - apply preserves_bind; [apply preserves_len|]. intros n.
    apply preserves_bind;
      [apply preserves_for_range_from, preserves_normalize_at|]. intros _.
    apply preserves_bind; [apply preserves_elements|]. intros names.
    now apply (preserves_plural db submitted AgroDatabase.FormulatedByCommonName).
  - apply preserves_raise.
Qed.

Lemma preserves_scientific crop name :
  preserves submitted
    (get_pesticides_by_crop_and_scientific_name py_str db crop name).
Proof.
  unfold get_pesticides_by_crop_and_scientific_name.
  apply preserves_bind; [|intros df; now apply preserves_sample_brands].
  destruct name as [s|l|].
  - now apply (preserves_single submitted AgroDatabase.FormulatedByCientificName).
  - apply preserves_bind; [apply preserves_elements|]. intros names.
    now apply (preserves_plural db submitted AgroDatabase.FormulatedByCientificName).
  - apply preserves_raise.
Qed.

Lemma preserves_eval_dict d : preserves submitted (eval_dict d).
Proof.
  induction d as [|[k v] d IH]; cbn [eval_dict]; [apply preserves_ret|].
  apply preserves_bind.
  - destruct v; cbn [eval_lit]; try apply preserves_ret.
    apply preserves_bind; [intros w; reflexivity|]. intros l. apply preserves_ret.
  - intros x. apply preserves_bind; [exact IH|]. intros rest. apply preserves_ret.
Qed.

Lemma preserves_call_tool p f tool :
  (forall c x, preserves submitted (f c x)) ->
  preserves submitted (call_tool literal_eval p f tool).
Proof.
  intros Hf. unfold call_tool.
  apply preserves_bind; [apply preserves_lift|]. intros d.
  apply preserves_bind; [apply preserves_eval_dict|]. intros kw.
  unfold call_kwargs. destruct (kwarg "crop" kw); [|apply preserves_raise].
  destruct (kwarg p kw); [|apply preserves_raise].
  destruct (decide (length kw = 2)); [apply Hf|apply preserves_raise].
Qed.

(** Every tool call of the dispatch table is a known one. *)
Lemma filter_known_all (tools : list ToolCall) :
  Forall (fun t => function_name t ∈ dispatch_table) tools ->
  List.filter known tools = tools.
Proof.
  induction 1 as [|t tools Ht _ IH]; [reflexivity|].
  simpl. unfold known at 1. rewrite (bool_decide_eq_true_2 _ Ht). now rewrite IH.
Qed.

Lemma known_cases t :
  known t = true <->
  function_name t = "pesticide_by_crop_and_common_name" \/
  function_name t = "pesticide_by_crop_and_scientific_name".
Proof.
  unfold known, dispatch_table. rewrite bool_decide_eq_true. split.
  - intros H. apply elem_of_cons in H as [H|H]; [now left|].
    apply elem_of_cons in H as [H|H]; [now right|inversion H].
  - intros [->| ->]; [now left|right; now left].
Qed.

(** The loop answers the calls of the dispatch table, one after the other,
    and passes over the others. *)
Lemma collect_outputs_answers tools : forall acc w,
  Model.collect_outputs py_str lower literal_eval db tools acc w
  = bind (mapM (answer_call py_str lower literal_eval db) (List.filter known tools))
         (fun outs => ret (acc ++ outs)) w.
Proof.
  induction tools as [|tool tools IH]; intros acc w.
  - unfold bind. simpl. unfold ret. now rewrite app_nil_r.
  - cbn [Model.collect_outputs List.filter].
    destruct (decide (function_name tool = "pesticide_by_crop_and_common_name"))
      as [E1|N1].
    + rewrite (proj2 (known_cases tool) (or_introl E1)).
      cbn [mapM]. unfold answer_call.
      destruct (decide (function_name tool = _)) as [_|N]; [|contradiction].
      unfold bind.
      destruct (Model.call_tool _ _ _ tool w) as [out w1|e w1]; [|reflexivity].
      cbv beta iota delta [ret]. rewrite IH. unfold bind.
      destruct (mapM _ _ w1) as [outs w2|e w2]; [|reflexivity].
      unfold ret. now rewrite <- app_assoc.
    + destruct (decide (function_name tool = "pesticide_by_crop_and_scientific_name"))
        as [E2|N2].
      * rewrite (proj2 (known_cases tool) (or_intror E2)).
        cbn [mapM]. unfold answer_call.
        destruct (decide (function_name tool = _)) as [E|_]; [contradiction|].
        unfold bind.
        destruct (Model.call_tool _ _ _ tool w) as [out w1|e w1]; [|reflexivity].
        cbv beta iota delta [ret]. rewrite IH. unfold bind.
        destruct (mapM _ _ w1) as [outs w2|e w2]; [|reflexivity].
        unfold ret. now rewrite <- app_assoc.
      * assert (Hk : known tool = false).
        { destruct (known tool) eqn:Ek; [|reflexivity].
          apply known_cases in Ek as [?|?]; contradiction. }
        rewrite Hk. apply IH.
Qed.

Lemma mapM_answer_ids tools : forall w outs w',
  mapM (answer_call py_str lower literal_eval db) tools w = Ret outs w' ->
  map tool_call_id outs = map call_id tools.
Proof.
  induction tools as [|tool tools IH]; intros w outs w' H.
  - now injection H as <- <-.
  - cbn [mapM] in H. unfold bind in H.
    destruct (answer_call _ _ _ _ tool w) as [o w1|e w1] eqn:E1; [|discriminate].
    destruct (mapM _ tools w1) as [os w2|e w2] eqn:E2; [|discriminate].
    injection H as <- <-. simpl. f_equal; [|eapply IH, E2].
    unfold answer_call, bind in E1.
    destruct (if decide _ then _ else _) as [out w3|e w3]; [|discriminate].
    now injection E1 as <- _.
Qed.


Lemma preserves_answers tools :
  preserves submitted (mapM (answer_call py_str lower literal_eval db) tools).
Proof.
  induction tools as [|tool tools IH]; cbn [mapM]; [apply preserves_ret|].
  apply preserves_bind.
  - unfold answer_call. apply preserves_bind; [|intros out; apply preserves_ret].
    destruct (decide (function_name tool = _)).
    + apply preserves_call_tool, preserves_common.
    + apply preserves_call_tool, preserves_scientific.
  - intros out. apply preserves_bind; [exact IH|]. intros outs. apply preserves_ret.
Qed.

(** The handler, step by step: the answers, then the one submission, then
    whatever the continued run asks for. *)
Lemma handler_steps continue thread_id data rid w :
  let answers := mapM (answer_call py_str lower literal_eval db)
                   (List.filter known (tool_calls data)) w in
  let o := handle_requires_action py_str lower literal_eval continue db
             thread_id data rid w in
  (forall outs w1, answers = Ret outs w1 ->
     submitted w1 = submitted w /\
     o = continue outs (with_batch (mkSubmission thread_id rid outs) w1)) /\
  (forall e w1, answers = Raise e w1 ->
     submitted w1 = submitted w /\ o = Raise e w1).
Proof.
  intros answers o. subst answers o.
  pose proof (preserves_answers (List.filter known (tool_calls data)) w) as Hsub.
  pose proof (collect_outputs_answers (tool_calls data) [] w) as Hc.
  unfold handle_requires_action.
  destruct (mapM _ _ w) as [outs w1|e w1] eqn:Em; simpl in Hsub.
  - rewrite (bind_Ret _ _ _ _ _ Em) in Hc.
    split; [|discriminate]. intros outs' w1' [= <- <-].
    split; [exact Hsub|]. now rewrite (bind_Ret _ _ _ _ _ Hc).
  - rewrite (bind_Raise _ _ _ _ _ Em) in Hc.
    split; [discriminate|]. intros e' w1' [= <- <-].
    split; [exact Hsub|]. now rewrite (bind_Raise _ _ _ _ _ Hc).
Qed.

(** Consuming a stream takes no batch back. *)
Lemma appends_until_done thread_id stream :
  appends (until_done py_str lower literal_eval db thread_id stream).
Proof.
  induction stream as [|event continued IHc rest IHr]; intros w.
  - exists []. simpl. now rewrite app_nil_r.
  - cbn [until_done]. unfold bind at 1.
    assert (Hev : exists more,
               submitted
                 (world_of
                    (on_event py_str lower literal_eval
                       (fun tool_outputs =>
                          until_done py_str lower literal_eval db thread_id
                            (continued tool_outputs))
                       db thread_id event w))
               = submitted w ++ more).
    { unfold on_event.
      destruct (decide (event_name event = _)) as [Hname|Hname];
        [|exists []; simpl; now rewrite app_nil_r].
      destruct (handler_steps
                  (fun tool_outputs =>
                     until_done py_str lower literal_eval db thread_id
                       (continued tool_outputs))
                  thread_id (event_data event) (run_id (event_data event)) w)
        as [Hret Hraise].
      destruct (mapM _ _ w) as [outs w1|e w1].
      - destruct (Hret outs w1 eq_refl) as [Hs ->].
        destruct (IHc outs (with_batch
                              (mkSubmission thread_id (run_id (event_data event))
                                 outs) w1)) as (more & ->).
        exists (mkSubmission thread_id (run_id (event_data event)) outs :: more).
        simpl. rewrite Hs. now rewrite <- app_assoc.
      - destruct (Hraise e w1 eq_refl) as [Hs ->].
        exists []. simpl. now rewrite Hs, app_nil_r. }
    destruct Hev as (more & Hm).
    destruct (on_event _ _ _ _ _ _ _ w) as [[] w1|e w1]; simpl in Hm.
    + destruct (IHr w1) as (more' & ->). exists (more ++ more').
      now rewrite Hm, <- app_assoc.
    + now exists more.
Qed.

End DispatcherFacts.

(** C4 (as amended). For the tool calls of an event whose function names
    are all in the dispatch table: when every lookup that the handler
    dispatches returns, the handler submits in one call, as its next batch
    for its thread and run, one output per call, under the call's id and in
    the order of the calls, holding the texts the lookups returned; any
    other batch comes after it, for what the continued run requires, and
    when the continued run streams nothing more the handler returns with
    that one batch. When a lookup raises, the handler raises that exception
    and has submitted nothing. *)
Theorem C4_one_output_per_call py_str lower literal_eval db thread_id data rid
    continued w :
  Forall (fun t => function_name t ∈ dispatch_table) (tool_calls data) ->
  let answers := mapM (answer_call py_str lower literal_eval db)
                   (tool_calls data) w in
  let o := Model.handle_requires_action py_str lower literal_eval
             (fun tool_outputs =>
                Model.until_done py_str lower literal_eval db thread_id
                  (continued tool_outputs))
             db thread_id data rid w in
  (forall outs w1, answers = Ret outs w1 ->
     map tool_call_id outs = map call_id (tool_calls data) /\
     (exists more,
        submitted (world_of o)
        = submitted w ++ mkSubmission thread_id rid outs :: more) /\
     (continued outs = EndOfStream ->
      o = Ret tt (with_batch (mkSubmission thread_id rid outs) w1) /\
      submitted (world_of o)
      = submitted w ++ [mkSubmission thread_id rid outs])) /\
  (forall e w1, answers = Raise e w1 ->
     o = Raise e w1 /\ submitted (world_of o) = submitted w).
Proof.
  intros Hall answers o. subst answers o.
  destruct (handler_steps py_str lower literal_eval db
              (fun tool_outputs =>
                 Model.until_done py_str lower literal_eval db thread_id
                   (continued tool_outputs))
              thread_id data rid w) as [Hret Hraise].
  rewrite (filter_known_all _ Hall) in Hret, Hraise. split.
  - intros outs w1 E. destruct (Hret outs w1 E) as [Hs ->].
    split; [eapply mapM_answer_ids, E|]. split.
    + destruct (appends_until_done py_str lower literal_eval db thread_id
                  (continued outs)
                  (with_batch (mkSubmission thread_id rid outs) w1))
        as (more & ->).
      exists more. simpl. rewrite Hs. now rewrite <- app_assoc.
    + intros ->. split; [reflexivity|]. simpl. now rewrite Hs.
  - intros e w1 E. destruct (Hraise e w1 E) as [Hs ->]. now split.
Qed.

Lemma C4_witness :
  exists outs w',
    Model.handle_requires_action Fixture.repr_list PyStr.lower_ascii
      Fixture.parse_args
      (fun tool_outputs =>
         Model.until_done Fixture.repr_list PyStr.lower_ascii
           Fixture.parse_args Fixture.soy_db "thread"
           (Fixture.ends_after tool_outputs))
      Fixture.soy_db "thread" (mkRun "run" [Fixture.t1; Fixture.t2]) "run"
      Fixture.world0
    = Ret tt w' /\
    submitted w' = [mkSubmission "thread" "run" outs] /\
    map tool_call_id outs = ["t1"; "t2"].
Proof.
  destruct (mapM (answer_call Fixture.repr_list PyStr.lower_ascii
                    Fixture.parse_args Fixture.soy_db)
              [Fixture.t1; Fixture.t2] Fixture.world0) as [outs w1|e w1] eqn:E;
    [|vm_compute in E; discriminate E].
  destruct (C4_one_output_per_call Fixture.repr_list PyStr.lower_ascii
              Fixture.parse_args Fixture.soy_db "thread"
              (mkRun "run" [Fixture.t1; Fixture.t2]) "run" Fixture.ends_after
              Fixture.world0 ltac:(repeat constructor)) as [Hret _].
  destruct (Hret outs w1 E) as (Hids & _ & Hend).
  destruct (Hend eq_refl) as [Ho Hs].
  exists outs, (with_batch (mkSubmission "thread" "run" outs) w1).
  split; [exact Ho|]. split; [|exact Hids].
  rewrite Ho in Hs. exact Hs.
Defined.

(** C4 as stated fails, by design of the record store, whose failures are
    not caught: where the container of the formulated products does not
    exist, the two calls "t1" and "t2", both in the dispatch table, get no
    output and no batch, since the first lookup raises the store's error
    and the handler with it. *)
Lemma C4_counterexample :
  Forall (fun t => function_name t ∈ dispatch_table) [Fixture.t1; Fixture.t2] /\
  Model.handle_requires_action Fixture.repr_list PyStr.lower_ascii
    Fixture.parse_args
    (fun tool_outputs =>
       Model.until_done Fixture.repr_list PyStr.lower_ascii Fixture.parse_args
         Fixture.technical_only_db "thread" (Fixture.ends_after tool_outputs))
    Fixture.technical_only_db "thread" (mkRun "run" [Fixture.t1; Fixture.t2])
    "run" Fixture.world0
  = Raise CosmosResourceNotFoundError
      (with_read ("produtosformulados",
                  mkQuery "PRAGA_NOME_COMUM" Like "lagarta" (Some 1000))
         Fixture.world0) /\
  ~ batch_in_order "thread" "run" [Fixture.t1; Fixture.t2] Fixture.world0
      (Model.handle_requires_action Fixture.repr_list PyStr.lower_ascii
         Fixture.parse_args
         (fun tool_outputs =>
            Model.until_done Fixture.repr_list PyStr.lower_ascii
              Fixture.parse_args Fixture.technical_only_db "thread"
              (Fixture.ends_after tool_outputs))
         Fixture.technical_only_db "thread"
         (mkRun "run" [Fixture.t1; Fixture.t2]) "run" Fixture.world0).
Proof.
  split; [repeat constructor|]. split; [reflexivity|].
  intros (outs & more & H & _). vm_compute in H. discriminate H.
Qed.

(* ===================================================================== *)
(** ** Name normalization: shape of the result *)
(* ===================================================================== *)

Lemma chars_of_map_chars f s :
  list_ascii_of_string (PyStr.map_chars f s) = map f (list_ascii_of_string s).
Proof. induction s; simpl; congruence. Qed.

Lemma length_map_chars f s :
  String.length (PyStr.map_chars f s) = String.length s.
Proof. induction s; simpl; congruence. Qed.

(** X1. A normalized name holds no space, whatever [str.lower] gave, and
    is as long as the lower-cased name. *)
Theorem normalize_is_a_slug lower s :
  String.length (Model.normalize lower s) = String.length (lower s) /\
  forall c, In c (list_ascii_of_string (Model.normalize lower s)) ->
            c <> " "%char.
Proof.
  rewrite normalize_replace_lower. unfold PyStr.replace_char.
  split; [apply length_map_chars|].
  intros c Hc. rewrite chars_of_map_chars in Hc.
  apply in_map_iff in Hc as (c0 & <- & _).
  destruct (Ascii.eqb c0 " ") eqn:E; [discriminate|].
  intros ->. now rewrite Ascii.eqb_refl in E.
Qed.

Lemma normalize_is_a_slug_witness :
  String.length (Model.normalize PyStr.lower_ascii "Flor de Poeta") = 13 /\
  ~ In " "%char
      (list_ascii_of_string (Model.normalize PyStr.lower_ascii "Flor de Poeta")).
Proof.
  destruct (normalize_is_a_slug PyStr.lower_ascii "Flor de Poeta") as [Hl Hc].
  split; [rewrite Hl; reflexivity|].
  intros Hin. now apply (Hc " "%char Hin).
Defined.

(* ===================================================================== *)
(** ** Record store: further properties *)
(* ===================================================================== *)

Lemma strip_internal_get it k :
  k ∉ AgroDatabase.internal_fields ->
  dict_get k (strip_internal it) = dict_get k it.
Proof.
  intros Hk. unfold strip_internal.
  induction it as [|[k' v] it IH]; [reflexivity|].
  rewrite filter_cons. cbn [fst dict_get]. destruct (decide (k' ∉ _)) as [Hin|Hout].
  - cbn [dict_get]. destruct (decide (k' = k)); [reflexivity|exact IH].
  - destruct (decide (k' = k)) as [->|Hne]; [|exact IH].
    exfalso. apply Hout. exact Hk.
Qed.

Lemma single_lift s db v w :
  AgroDatabase.single s db v w = lift (frame_of s db v) (with_read (read_of s v) w).
Proof.
  rewrite single_is_select. unfold frame_of, read_of.
  pose proof (select_where_cases db (AgroDatabase.container_of s)
                (AgroDatabase.query_of s v) w) as H.
  destruct (get_container (AgroDatabase.container_of s) db); exact H.
Qed.

Lemma single_frame s db v w df w' :
  AgroDatabase.single s db v w = Ret df w' <->
  frame_of s db v = Ok df /\ w' = with_read (read_of s v) w.
Proof.
  rewrite single_lift. destruct (frame_of s db v) as [d|e]; simpl; split.
  - now intros [= -> <-].
  - now intros [[= ->] ->].
  - discriminate.
  - now intros [[=] _].
Qed.





(** X5. On a database that has the container, as [container_exists]
    reports, and whose documents carry the fields the store adds, a
    single-value query returns for every plain value. *)
Theorem single_returns_on_a_store s db v w :
  plain_value v = true ->
  Records.container_exists db (AgroDatabase.container_of s) = true ->
  (forall items, get_container (AgroDatabase.container_of s) db = Some items ->
                 store_fields_present items) ->
  returns (AgroDatabase.single s db v w).
Proof.
  intros _ Hex Hwf. rewrite single_is_select.
  destruct (get_container (AgroDatabase.container_of s) db) as [items|] eqn:Hg.
  - eapply select_where_returns; [exact Hg|now apply Hwf].
  - exfalso. unfold Records.container_exists in Hex.
    apply bool_decide_eq_true in Hex. clear Hwf.
    induction db as [|[n its] db IH]; [inversion Hex|].
    simpl in Hg. destruct (decide (n = AgroDatabase.container_of s)); [discriminate|].
    simpl in Hex. apply elem_of_cons in Hex as [Heq|Hin]; [congruence|].
    now apply IH.
Qed.

Lemma single_returns_witness :
  returns (AgroDatabase.single AgroDatabase.FormulatedByCientificName
             Fixture.soy_db "Spodoptera" Fixture.world0).
Proof.
  apply single_returns_on_a_store; [reflexivity|reflexivity|].
  intros items Hg. vm_compute in Hg. injection Hg as <-.
  intros it f Hit Hf.
  repeat (apply elem_of_cons in Hit as [->|Hit];
          [repeat (apply elem_of_cons in Hf as [->|Hf];
                   [apply list_elem_of_In; vm_compute; tauto|]);
           inversion Hf|]).
  inversion Hit.
Defined.

(** X6. When the container is missing, the failure of the store comes
    through unchanged: a single-value query, a multi-value query with at
    least one value and both lookups raise the store's not-found error
    after the one read they sent. *)
Theorem missing_container_propagates py_str lower s db crop v rest w :
  get_container (AgroDatabase.container_of s) db = None ->
  AgroDatabase.single s db v w
  = Raise CosmosResourceNotFoundError (with_read (read_of s v) w) /\
  AgroDatabase.plural s db (v :: rest) w
  = Raise CosmosResourceNotFoundError (with_read (read_of s v) w) /\
  (AgroDatabase.container_of s = "produtosformulados" ->
   Model.get_pesticides_by_crop_and_common_name py_str lower db crop (PStr v) w
   = Raise CosmosResourceNotFoundError
       (with_read (read_of AgroDatabase.FormulatedByCommonName (Model.normalize lower v)) w)
   /\
   Model.get_pesticides_by_crop_and_scientific_name py_str db crop (PStr v) w
   = Raise CosmosResourceNotFoundError
       (with_read (read_of AgroDatabase.FormulatedByCientificName v) w)).
Proof.
  intros Hg.
  assert (Hs : forall s0 v0, AgroDatabase.container_of s0 = AgroDatabase.container_of s ->
             AgroDatabase.single s0 db v0 w
             = Raise CosmosResourceNotFoundError (with_read (read_of s0 v0) w)).
  { intros s0 v0 Hc. rewrite single_lift. unfold frame_of. now rewrite Hc, Hg. }
  split; [now apply Hs|]. split.
  - rewrite plural_is_union. unfold AgroDatabase.union_query.
    cbn [AgroDatabase.union_loop].
    erewrite bind_Raise; [reflexivity|].
    erewrite bind_Raise; [reflexivity|now apply Hs].
  - intros Hc. split.
    + rewrite common_str_steps. erewrite bind_Raise; [reflexivity|].
      apply Hs. now rewrite Hc.
    + rewrite scientific_str_steps. erewrite bind_Raise; [reflexivity|].
      apply Hs. now rewrite Hc.
Qed.

Lemma missing_container_witness :
  AgroDatabase.plural AgroDatabase.TechnicalByClass [] ["Herbicida"; "Fungicida"]
    Fixture.world0
  = Raise CosmosResourceNotFoundError
      (with_read (read_of AgroDatabase.TechnicalByClass "Herbicida") Fixture.world0).
Proof.
  exact (proj1 (proj2 (missing_container_propagates Fixture.repr_list
                         PyStr.lower_ascii
                         AgroDatabase.TechnicalByClass [] PNone "Herbicida"
                         ["Fungicida"] Fixture.world0 eq_refl))).
Defined.

(** What a multi-value query that returns was made of. *)
Lemma plural_Ret s db values w df w' :
  AgroDatabase.plural s db values w = Ret df w' ->
  exists frames whole,
    mapM (AgroDatabase.single s db) values w = Ret frames w' /\
    Pandas.concat frames = Ok whole /\
    df = Pandas.drop_duplicates whole.
Proof.
  rewrite plural_is_union. destruct values as [|v values]; [discriminate|].
  rewrite union_query_refines by discriminate. unfold union_spec, bind.
  destruct (mapM _ _ w) as [frames w1|e w1]; [|discriminate].
  destruct (Pandas.concat frames) as [whole|e] eqn:Ec; [|discriminate].
  simpl. intros [= <- <-]. now exists frames, whole.
Qed.

Lemma mapM_frames s db values : forall w frames w',
  mapM (AgroDatabase.single s db) values w = Ret frames w' ->
  Forall2 (fun v df => frame_of s db v = Ok df) values frames.
Proof.
  induction values as [|v values IH]; intros w frames w' H.
  - injection H as <- <-. constructor.
  - cbn [mapM] in H. unfold bind in H.
    destruct (AgroDatabase.single s db v w) as [r w1|e w1] eqn:E1; [|discriminate].
    destruct (mapM _ values w1) as [rs w2|e w2] eqn:E2; [|discriminate].
    injection H as <- <-. constructor; [|eapply IH, E2].
    now apply single_frame in E1 as [? _].
Qed.

Lemma concat_rows frames whole :
  Pandas.concat frames = Ok whole ->
  rows whole = List.concat (map rows frames) /\
  columns whole = fold_left label_union (map columns frames) [].
Proof.
  unfold Pandas.concat. destruct frames; [discriminate|]. now intros [= <-].
Qed.

Lemma drop_duplicates_rows df r :
  r ∈ rows (Pandas.drop_duplicates df) -> r ∈ rows df.
Proof.
  unfold Pandas.drop_duplicates. destruct (Pandas.empty df); [trivial|].
  cbn [rows]. intros H. now apply keep_first_elem in H as [? _].
Qed.

Lemma drop_duplicates_covers df r :
  r ∈ rows df ->
  exists r', r' ∈ rows (Pandas.drop_duplicates df) /\
             Pandas.cells (columns df) r' = Pandas.cells (columns df) r.
Proof.
  unfold Pandas.drop_duplicates. intros Hr.
  destruct (Pandas.empty df); [now exists r|]. cbn [rows].
  destruct (keep_first_covers (Pandas.cells (columns df)) [] (rows df) r Hr)
    as [H|H]; [inversion H|].
  apply list_elem_of_In, in_map_iff in H as (r' & Hc & Hin).
  exists r'. split; [now apply list_elem_of_In|exact Hc].
Qed.

Lemma drop_duplicates_columns df :
  columns (Pandas.drop_duplicates df) = columns df.
Proof. unfold Pandas.drop_duplicates. now destruct (Pandas.empty df). Qed.


(** X7. A multi-value query that returns has sent one read per value, in
    the order of the values, each to the container of its single-value
    query; it has drawn no random number, changed no list object and
    submitted nothing. *)
Theorem plural_sends_one_read_per_value s db values w df w' :
  AgroDatabase.plural s db values w = Ret df w' ->
  queries w'
  = queries w
      ++ map (fun v => (AgroDatabase.container_of s, AgroDatabase.query_of s v))
             values /\
  heap w' = heap w /\ rng w' = rng w /\ submitted w' = submitted w.
Proof.
  intros H.
  assert (Hw : w' = world_of (AgroDatabase.plural s db values w)) by now rewrite H.
  destruct (plural_queries db s values w) as (k & _ & Hq & Hk).
  rewrite H in Hq, Hk. simpl in Hq. specialize (Hk I). subst k.
  rewrite firstn_all in Hq. split; [exact Hq|].
  rewrite Hw. repeat split; now rewrite preserves_plural.
Qed.

Lemma plural_reads_witness :
  exists df w',
    AgroDatabase.plural AgroDatabase.FormulatedByClass Fixture.soy_db
      ["Inseticida"; "Herbicida"] Fixture.world0 = Ret df w' /\
    queries w'
    = [("produtosformulados", mkQuery "CLASSE" Like "Inseticida" (Some 1000));
       ("produtosformulados", mkQuery "CLASSE" Like "Herbicida" (Some 1000))].
Proof.
  destruct (AgroDatabase.plural AgroDatabase.FormulatedByClass Fixture.soy_db
              ["Inseticida"; "Herbicida"] Fixture.world0) as [df w'|e w'] eqn:E;
    [|vm_compute in E; discriminate E].
  exists df, w'. split; [reflexivity|].
  now destruct (plural_sends_one_read_per_value _ _ _ _ _ _ E) as [-> _].
Defined.



(** X9. A multi-value query is the union of its single-value queries: each
    row it returns is a row of the frame of one of the values, and each row
    of the frame of each value is there, as a row with the same cells. *)
Theorem plural_is_the_union_of_the_singles s db values w df w' :
  AgroDatabase.plural s db values w = Ret df w' ->
  (forall r, r ∈ rows df ->
     exists v dv, v ∈ values /\ frame_of s db v = Ok dv /\ r ∈ rows dv) /\
  (forall v dv r, v ∈ values -> frame_of s db v = Ok dv -> r ∈ rows dv ->
     exists r', r' ∈ rows df /\
                Pandas.cells (columns df) r' = Pandas.cells (columns df) r).
Proof.
  intros H. apply plural_Ret in H as (frames & whole & Hm & Hc & ->).
  apply mapM_frames in Hm. apply concat_rows in Hc as [Hrows _].
  split.
  - intros r Hr. apply drop_duplicates_rows in Hr. rewrite Hrows in Hr.
    clear Hrows. induction Hm as [|v dv values frames Hv Hm IH]; [inversion Hr|].
    cbn [map List.concat] in Hr. apply elem_of_app in Hr as [Hr|Hr].
    + exists v, dv. split; [now left|]. now split.
    + destruct (IH Hr) as (v' & dv' & Hin & Hf & Hr').
      exists v', dv'. split; [now right|]. now split.
  - intros v dv r Hv Hf Hr. rewrite drop_duplicates_columns.
    apply drop_duplicates_covers. rewrite Hrows. clear Hrows.
    induction Hm as [|v0 d0 values frames Hv0 Hm IH]; [inversion Hv|].
    cbn [map List.concat]. apply elem_of_app.
    apply elem_of_cons in Hv as [->|Hv].
    + left. rewrite Hv0 in Hf. now injection Hf as ->.
    + right. now apply IH.
Qed.

Lemma plural_union_witness :
  exists df w',
    AgroDatabase.plural AgroDatabase.TechnicalByClass Fixture.soy_db
      ["Herbicida"; "Fungicida"] Fixture.world0 = Ret df w' /\
    forall r, r ∈ rows df ->
      exists v dv, v ∈ ["Herbicida"; "Fungicida"] /\
                   frame_of AgroDatabase.TechnicalByClass Fixture.soy_db v = Ok dv /\
                   r ∈ rows dv.
Proof.
  destruct (AgroDatabase.plural AgroDatabase.TechnicalByClass Fixture.soy_db
              ["Herbicida"; "Fungicida"] Fixture.world0) as [df w'|e w'] eqn:E;
    [|vm_compute in E; discriminate E].
  exists df, w'. split; [reflexivity|].
  exact (proj1 (plural_is_the_union_of_the_singles _ _ _ _ _ _ E)).
Defined.


(* ===================================================================== *)
(** ** Lookup service: further properties *)
(* ===================================================================== *)

Section LookupMore.
Variable py_str : list Value -> string.
Variable lower : string -> string.

(** The five brands drawn are brand cells of rows of the frame. *)
Lemma sample_brands_from_rows df w out w' :
  Model.sample_brands py_str df w = Ret out w' ->
  exists picked, out = py_str picked /\ length picked = 5 /\ NoDup picked /\
    (forall b, b ∈ picked ->
       exists r, r ∈ rows df /\ Pandas.cell r "MARCA_COMERCIAL" = b) /\
    w' = with_draws 5 w.
Proof.
  unfold Model.sample_brands, bind.
  destruct (Pandas.drop_duplicates_subset _ df) as [df1|e] eqn:Ed; [|discriminate].
  simpl. destruct (Pandas.getitem _ df1) as [brands|e] eqn:Eg; [|discriminate].
  simpl. unfold np_sample, Pandas.sample.
  destruct (decide (5 <= length brands)) as [Hlen|]; [|discriminate].
  intros [= <- <-]. exists (Pandas.pick 5 brands (rng w)).
  split; [reflexivity|]. split; [now apply pick_length|].
  split; [|split; [|reflexivity]].
  - unfold Pandas.getitem in Eg.
    destruct (decide ("MARCA_COMERCIAL" ∈ columns df1)); [|discriminate].
    injection Eg as <-. apply pick_NoDup; [exact Hlen|].
    unfold Pandas.drop_duplicates_subset in Ed.
    destruct (Pandas.empty df) eqn:Ee.
    + injection Ed as <-. exfalso. unfold Pandas.empty in Ee.
      destruct (rows df); [simpl in Hlen; lia|].
      destruct (columns df); [inversion e|discriminate].
    + destruct (Pandas.missing_labels _ _); [|discriminate].
      injection Ed as <-. cbn [rows].
      pose proof (keep_first_NoDup (Pandas.cells ["MARCA_COMERCIAL"]) [] (rows df))
        as Hnd.
      revert Hnd. generalize (Pandas.keep_first (Pandas.cells ["MARCA_COMERCIAL"])
                                [] (rows df)).
      intros rs Hnd. induction rs as [|r rs IH]; [constructor|].
      simpl in *. apply NoDup_cons in Hnd as [Hn' Hnd].
      constructor; [|now apply IH].
      intros Hin. apply Hn'.
      apply list_elem_of_In, in_map_iff in Hin as (r' & Hr' & Hin).
      apply list_elem_of_In, in_map_iff. exists r'.
      split; [unfold Pandas.cells; simpl; now rewrite Hr'|assumption].
  - intros b Hb. apply pick_elem in Hb; [|exact Hlen].
    unfold Pandas.getitem in Eg.
    destruct (decide ("MARCA_COMERCIAL" ∈ columns df1)); [|discriminate].
    injection Eg as <-.
    apply list_elem_of_In, in_map_iff in Hb as (r & Hr & Hin).
    exists r. split; [|exact Hr]. apply list_elem_of_In in Hin.
    unfold Pandas.drop_duplicates_subset in Ed.
    destruct (Pandas.empty df); [now injection Ed as <-|].
    destruct (Pandas.missing_labels _ _); [|discriminate].
    injection Ed as <-. cbn [rows] in Hin.
    now apply keep_first_elem in Hin as [? _].
Qed.

(** A lookup on one name that returns: five distinct brand cells of
    documents that the read selects. *)
Lemma lookup_one_name s db v w out w' :
  AgroDatabase.container_of s = "produtosformulados" ->
  bind (AgroDatabase.single s db v) (Model.sample_brands py_str) w = Ret out w' ->
  exists items picked,
    get_container "produtosformulados" db = Some items /\
    out = py_str picked /\ length picked = 5 /\ NoDup picked /\
    (forall b, b ∈ picked ->
       exists it, it ∈ items /\
                  AgroDatabase.matches (AgroDatabase.query_of s v) it = true /\
                  Pandas.cell it "MARCA_COMERCIAL" = b) /\
    w' = with_draws 5 (with_read (read_of s v) w).
Proof.
  intros Hs H. unfold bind in H.
  destruct (AgroDatabase.single s db v w) as [df w1|e w1] eqn:E; [|discriminate].
  pose proof (proj1 (single_frame _ _ _ _ _ _) E) as [_ ->].
  rewrite single_is_select in E.
  apply select_where_Ret in E as (items & Hg & _ & Hcase). cbv zeta in Hcase.
  rewrite Hs in Hg.
  apply sample_brands_from_rows in H as (picked & Ho & Hl & Hn & Hb & Hw).
  exists items, picked. repeat (split; [assumption|]). split; [|exact Hw].
  intros b Hin. destruct (Hb b Hin) as (r & Hr & Hc).
  assert (Hrow : exists it, it ∈ AgroDatabase.run_query (AgroDatabase.query_of s v) items
                            /\ Pandas.cell it "MARCA_COMERCIAL" = b).
  { destruct Hcase as [(_ & _ & Hd)|[_ ->]].
    - apply drop_Ok in Hd as [_ Hrows]. rewrite Hrows in Hr.
      apply list_elem_of_In, in_map_iff in Hr as (it & <- & Hit).
      exists it. split; [now apply list_elem_of_In|].
      rewrite <- Hc. unfold Pandas.cell.
      change (filter _ it) with (strip_internal it).
      rewrite strip_internal_get; [reflexivity|].
      intros Hf. unfold AgroDatabase.internal_fields in Hf.
      repeat (apply elem_of_cons in Hf as [Hf|Hf]; [discriminate|]). inversion Hf.
    - now exists r. }
  destruct Hrow as (it & Hit & Hcell).
  apply elem_of_run_query in Hit as [Hm Hit]. now exists it.
Qed.

(** Values that are all strings are the strings of a list. *)
Lemma strings_of_values (picked : list Value) :
  NoDup picked ->
  (forall b, b ∈ picked -> exists x, b = VStr x) ->
  exists names, picked = map VStr names /\ NoDup names.
Proof.
  induction 1 as [|b picked Hnot Hnd IH]; intros Hall.
  - exists []. split; [reflexivity|constructor].
  - destruct IH as (names & -> & Hn); [intros b' Hb'; apply Hall; now right|].
    destruct (Hall b) as (x & ->); [now left|].
    exists (x :: names). split; [reflexivity|]. constructor; [|exact Hn].
    intros Hin. apply Hnot. apply list_elem_of_In, in_map.
    now apply list_elem_of_In.
Qed.

(** A lookup on one name that returns, where every product selected
    carries a brand name: five distinct brand names of such products. *)
Lemma lookup_brand_names s db v w out w' items :
  AgroDatabase.container_of s = "produtosformulados" ->
  get_container "produtosformulados" db = Some items ->
  brand_names_present (AgroDatabase.query_of s v) items ->
  bind (AgroDatabase.single s db v) (Model.sample_brands py_str) w = Ret out w' ->
  exists names,
    out = py_str (map VStr names) /\ length names = 5 /\ NoDup names /\
    (forall b, b ∈ names ->
       exists it, it ∈ items /\
                  AgroDatabase.matches (AgroDatabase.query_of s v) it = true /\
                  dict_get "MARCA_COMERCIAL" it = Some (VStr b)) /\
    queries w' = queries w ++ [read_of s v].
Proof.
  intros Hs Hg Hbrands H.
  apply lookup_one_name in H
    as (items' & picked & Hg' & -> & Hl & Hn & Hb & ->); [|exact Hs].
  rewrite Hg in Hg'. injection Hg' as <-.
  assert (Hstr : forall b, b ∈ picked ->
            exists x, b = VStr x /\
              exists it, it ∈ items /\
                AgroDatabase.matches (AgroDatabase.query_of s v) it = true /\
                dict_get "MARCA_COMERCIAL" it = Some (VStr x)).
  { intros b Hin. destruct (Hb b Hin) as (it & Hit & Hm & Hc).
    destruct (Hbrands it Hit Hm) as (x & Hx).
    exists x. unfold Pandas.cell in Hc. rewrite Hx in Hc. simpl in Hc.
    split; [now symmetry|]. now exists it. }
  destruct (strings_of_values picked Hn) as (names & -> & Hnames).
  { intros b Hin. destruct (Hstr b Hin) as (x & -> & _). now exists x. }
  exists names. split; [reflexivity|].
  split; [now rewrite length_map in Hl|]. split; [exact Hnames|].
  split; [|reflexivity].
  intros b Hin.
  destruct (Hstr (VStr b)) as (x & [= <-] & Hit);
    [apply list_elem_of_In, in_map; now apply list_elem_of_In|exact Hit].
Qed.

(** X11. When a lookup for one plain name returns, on a store whose
    matching products carry a brand name, its text is that of five brand
    names, no two alike, each the brand of a formulated product whose pest
    name contains the name asked for (normalized, for a common name); and
    it has sent one read. *)
Theorem lookup_returns_five_matching_brands db crop s w out w' items :
  get_container "produtosformulados" db = Some items ->
  (plain_value (Model.normalize lower s) = true ->
   brand_names_present
     (mkQuery "PRAGA_NOME_COMUM" Like (Model.normalize lower s) (Some 1000))
     items ->
   Model.get_pesticides_by_crop_and_common_name py_str lower db crop (PStr s) w
   = Ret out w' ->
   exists names,
     out = py_str (map VStr names) /\ length names = 5 /\ NoDup names /\
     (forall b, b ∈ names ->
        exists it, it ∈ items /\
          AgroDatabase.matches
            (mkQuery "PRAGA_NOME_COMUM" Like (Model.normalize lower s)
               (Some 1000)) it
          = true /\
          dict_get "MARCA_COMERCIAL" it = Some (VStr b)) /\
     queries w' = queries w ++ [("produtosformulados",
                                 mkQuery "PRAGA_NOME_COMUM" Like
                                   (Model.normalize lower s) (Some 1000))]) /\
  (plain_value s = true ->
   brand_names_present
     (mkQuery "PRAGA_NOME_CIENTIFICO" Like s (Some 1000)) items ->
   Model.get_pesticides_by_crop_and_scientific_name py_str db crop (PStr s) w
   = Ret out w' ->
   exists names,
     out = py_str (map VStr names) /\ length names = 5 /\ NoDup names /\
     (forall b, b ∈ names ->
        exists it, it ∈ items /\
          AgroDatabase.matches
            (mkQuery "PRAGA_NOME_CIENTIFICO" Like s (Some 1000)) it = true /\
          dict_get "MARCA_COMERCIAL" it = Some (VStr b)) /\
     queries w' = queries w ++ [("produtosformulados",
                                 mkQuery "PRAGA_NOME_CIENTIFICO" Like s (Some 1000))]).
Proof.
  intros Hg. split; intros _ Hbrands H.
  - rewrite common_str_steps in H.
    now apply (lookup_brand_names AgroDatabase.FormulatedByCommonName
                 db (Model.normalize lower s) w out w' items eq_refl Hg).
  - rewrite scientific_str_steps in H.
    now apply (lookup_brand_names AgroDatabase.FormulatedByCientificName
                 db s w out w' items eq_refl Hg).
Qed.

End LookupMore.

(** Every formulated product of the test store carries a brand name. *)
Lemma soy_products_have_brands q :
  brand_names_present q Fixture.soy_products.
Proof.
  intros it Hit _.
  repeat (apply elem_of_cons in Hit as [->|Hit]; [eexists; reflexivity|]).
  inversion Hit.
Qed.

Lemma lookup_returns_witness :
  exists names w',
    Model.get_pesticides_by_crop_and_common_name Fixture.repr_list
      PyStr.lower_ascii Fixture.soy_db (PStr "soja") (PStr "Lagarta")
      Fixture.world0
    = Ret (Fixture.repr_list (map VStr names)) w' /\
    length names = 5 /\ NoDup names /\
    queries w' = [("produtosformulados",
                   mkQuery "PRAGA_NOME_COMUM" Like "lagarta" (Some 1000))].
Proof.
  destruct (Model.get_pesticides_by_crop_and_common_name Fixture.repr_list
              PyStr.lower_ascii Fixture.soy_db (PStr "soja") (PStr "Lagarta")
              Fixture.world0)
    as [out w'|e w'] eqn:E; [|vm_compute in E; discriminate E].
  destruct (proj1 (lookup_returns_five_matching_brands Fixture.repr_list
                     PyStr.lower_ascii Fixture.soy_db (PStr "soja") "Lagarta"
                     Fixture.world0 out w' Fixture.soy_products eq_refl)
              eq_refl (soy_products_have_brands _) E)
    as (names & -> & Hl & Hn & _ & Hq).
  exists names, w'. split; [reflexivity|]. split; [exact Hl|].
  split; [exact Hn|exact Hq].
Defined.

(** X12. When the formulated products whose pest name matches the plain
    name asked for all carry a brand name, and fewer than five distinct
    ones, the lookup does not return, on any store. *)
Theorem fewer_than_five_brands_never_returns py_str lower db crop s w items :
  get_container "produtosformulados" db = Some items ->
  (plain_value (Model.normalize lower s) = true ->
   brand_names_present
     (mkQuery "PRAGA_NOME_COMUM" Like (Model.normalize lower s) (Some 1000))
     items ->
   length (remove_dups
             (map (fun it => Pandas.cell it "MARCA_COMERCIAL")
                  (List.filter
                     (AgroDatabase.matches
                        (mkQuery "PRAGA_NOME_COMUM" Like (Model.normalize lower s)
                           (Some 1000)))
                     items))) < 5 ->
   ~ returns (Model.get_pesticides_by_crop_and_common_name
                py_str lower db crop (PStr s) w)) /\
  (plain_value s = true ->
   brand_names_present
     (mkQuery "PRAGA_NOME_CIENTIFICO" Like s (Some 1000)) items ->
   length (remove_dups
             (map (fun it => Pandas.cell it "MARCA_COMERCIAL")
                  (List.filter
                     (AgroDatabase.matches
                        (mkQuery "PRAGA_NOME_CIENTIFICO" Like s (Some 1000)))
                     items))) < 5 ->
   ~ returns (Model.get_pesticides_by_crop_and_scientific_name
                py_str db crop (PStr s) w)).
Proof.
  intros Hg.
  assert (Hgen : forall sel v,
    AgroDatabase.container_of sel = "produtosformulados" ->
    length (remove_dups
              (map (fun it => Pandas.cell it "MARCA_COMERCIAL")
                   (List.filter
                      (AgroDatabase.matches (AgroDatabase.query_of sel v)) items)))
    < 5 ->
    ~ returns (bind (AgroDatabase.single sel db v) (Model.sample_brands py_str) w)).
  { intros sel v Hs Hfew Hret.
    destruct (bind _ _ w) as [out w'|e w'] eqn:E; [|contradiction].
    apply lookup_one_name in E
      as (items' & picked & Hg' & _ & Hl & Hn & Hb & _); [|exact Hs].
    rewrite Hg in Hg'. injection Hg' as <-.
    assert (Hle : length picked
                  <= length (remove_dups
                               (map (fun it => Pandas.cell it "MARCA_COMERCIAL")
                                    (List.filter
                                       (AgroDatabase.matches
                                          (AgroDatabase.query_of sel v)) items)))).
    { apply submseteq_length, NoDup_submseteq; [exact Hn|].
      intros b Hin. apply elem_of_remove_dups.
      destruct (Hb b Hin) as (it & Hit & Hm & Hc).
      apply list_elem_of_In, in_map_iff. exists it. split; [exact Hc|].
      apply filter_In. split; [now apply list_elem_of_In|exact Hm]. }
    lia. }
  split; intros _ _ Hfew.
  - rewrite common_str_steps.
    now apply (Hgen AgroDatabase.FormulatedByCommonName (Model.normalize lower s)).
  - rewrite scientific_str_steps.
    now apply (Hgen AgroDatabase.FormulatedByCientificName s).
Qed.

Lemma fewer_than_five_brands_witness :
  ~ returns (Model.get_pesticides_by_crop_and_scientific_name Fixture.repr_list
               Fixture.soy_db (PStr "soja") (PStr "Ipomoea") Fixture.world0).
Proof.
  refine (proj2 (fewer_than_five_brands_never_returns Fixture.repr_list
                   PyStr.lower_ascii Fixture.soy_db (PStr "soja") "Ipomoea"
                   Fixture.world0 Fixture.soy_products eq_refl)
            eq_refl (soy_products_have_brands _) _).
  vm_compute. lia.
Defined.

(* ===================================================================== *)
(** ** Lookup service: what a lookup touches *)
(* ===================================================================== *)

Section Footprint.
Variable py_str : list Value -> string.
Variable lower : string -> string.
Variable db : Database.
Context {X : Type} (f : World -> X).
Hypothesis f_heap : forall h w, f (with_heap h w) = f w.
Hypothesis f_read : forall r w, f (with_read r w) = f w.

Lemma footprint_len l : preserves f (PyList.len l).
Proof. intros w. unfold PyList.len. now destruct (heap w !! l). Qed.

Lemma footprint_elements l : preserves f (PyList.elements l).
Proof. intros w. unfold PyList.elements. now destruct (heap w !! l). Qed.

Lemma footprint_normalize_at l k : preserves f (Model.normalize_at lower l k).
Proof.
  apply preserves_bind.
  - intros w. unfold PyList.getitem. destruct (heap w !! l) as [xs|]; [|reflexivity].
    now destruct (xs !! k).
  - intros x w. unfold PyList.setitem. destruct (heap w !! l) as [xs|]; [|reflexivity].
    destruct (decide (k < length xs)); [apply f_heap|reflexivity].
Qed.

(** The part of a lookup before the brands are drawn. *)
Lemma footprint_common_frame name :
  exists frame : M DataFrame,
    (forall crop w,
        Model.get_pesticides_by_crop_and_common_name py_str lower db crop name w
        = bind frame (Model.sample_brands py_str) w) /\
    preserves f frame.
Proof.
  eexists. split; [intros crop w; reflexivity|].
  destruct name as [s|l|].
  - now apply (preserves_single f AgroDatabase.FormulatedByCommonName).
  - apply preserves_bind; [apply footprint_len|]. intros n.
    apply preserves_bind;
      [apply preserves_for_range_from, footprint_normalize_at|]. intros _.
    apply preserves_bind; [apply footprint_elements|]. intros names.
    now apply (preserves_plural db f AgroDatabase.FormulatedByCommonName).
  - apply preserves_raise.
Qed.

Lemma footprint_scientific_frame name :
  exists frame : M DataFrame,
    (forall crop w,
        Model.get_pesticides_by_crop_and_scientific_name py_str db crop name w
        = bind frame (Model.sample_brands py_str) w) /\
    preserves f frame.
Proof.
  eexists. split; [intros crop w; reflexivity|].
  destruct name as [s|l|].
  - now apply (preserves_single f AgroDatabase.FormulatedByCientificName).
  - apply preserves_bind; [apply footprint_elements|]. intros names.
    now apply (preserves_plural db f AgroDatabase.FormulatedByCientificName).
  - apply preserves_raise.
Qed.

End Footprint.

(** X13. What a lookup touches. Neither lookup ever submits a batch. The
    scientific-name lookup never changes a list object, and the common-name
    lookup changes none when it is given a string. *)
Theorem lookup_footprint py_str lower db crop name w :
  let oc := Model.get_pesticides_by_crop_and_common_name py_str lower db crop
              name w in
  let os := Model.get_pesticides_by_crop_and_scientific_name py_str db crop
              name w in
  submitted (world_of oc) = submitted w /\
  submitted (world_of os) = submitted w /\
  heap (world_of os) = heap w /\
  (forall s, name = PStr s -> heap (world_of oc) = heap w).
Proof.
  intros oc os. subst oc os.
  split; [|split; [|split]].
  - destruct (footprint_common_frame py_str lower db submitted
                ltac:(reflexivity) ltac:(reflexivity) name) as (frame & -> & Hf).
    rewrite (bind_preserved submitted)
      by (intros df; now apply preserves_sample_brands). apply Hf.
  - destruct (footprint_scientific_frame py_str db submitted
                ltac:(reflexivity) name) as (frame & -> & Hf).
    rewrite (bind_preserved submitted)
      by (intros df; now apply preserves_sample_brands). apply Hf.
  - destruct (footprint_scientific_frame py_str db heap
                ltac:(reflexivity) name) as (frame & -> & Hf).
    rewrite (bind_preserved heap)
      by (intros df; now apply preserves_sample_brands). apply Hf.
  - intros s ->. rewrite common_str_steps.
    rewrite (bind_preserved heap)
      by (intros df; now apply preserves_sample_brands).
    now rewrite single_world.
Qed.

Lemma lookup_footprint_witness :
  heap (world_of (Model.get_pesticides_by_crop_and_common_name
                    Fixture.repr_list PyStr.lower_ascii Fixture.soy_db
                    (PStr "soja") (PStr "Flor de Poeta")
                    (Fixture.world_with_list ["Flor de Poeta"])))
  = [["Flor de Poeta"]].
Proof.
  destruct (lookup_footprint Fixture.repr_list PyStr.lower_ascii Fixture.soy_db
              (PStr "soja") (PStr "Flor de Poeta")
              (Fixture.world_with_list ["Flor de Poeta"]))
    as (_ & _ & _ & Hc).
  exact (Hc "Flor de Poeta" eq_refl).
Defined.


(* ===================================================================== *)
(** ** Tool dispatcher: further properties *)
(* ===================================================================== *)


(** X15. The handler is: answer the tool calls whose function is in the
    dispatch table, one after the other in the order received, each by its
    lookup, and submit the answers in one call; a tool call with another
    function name is passed over and gets no output. *)
Theorem handler_answers_the_known_calls py_str lower literal_eval continue db
    thread_id data rid w :
  Model.handle_requires_action py_str lower literal_eval continue db thread_id
    data rid w
  = bind (mapM (answer_call py_str lower literal_eval db)
            (List.filter known (tool_calls data)))
         (fun outs => Model.submit_tool_outputs continue thread_id outs rid) w.
Proof.
  unfold Model.handle_requires_action. unfold bind at 1.
  rewrite collect_outputs_answers. unfold bind at 1 2.
  now destruct (mapM _ _ w).
Qed.

(** X16. An event other than "thread.run.requires_action" changes nothing.
    On that event the handler answers the tool calls of a known function.
    When all their lookups return, its next batch, under the run id of the
    event, holds one output for each of them, in order, and none for the
    others; what the continued run requires is handled after it, and when
    the continued run streams nothing more the event returns with that one
    batch. When a lookup raises, the event raises the same exception and
    nothing is submitted. *)
Theorem on_event_batches py_str lower literal_eval db thread_id event
    continued w :
  let answers := mapM (answer_call py_str lower literal_eval db)
                   (List.filter known (tool_calls (event_data event))) w in
  let o := Model.on_event py_str lower literal_eval
             (fun tool_outputs =>
                Model.until_done py_str lower literal_eval db thread_id
                  (continued tool_outputs))
             db thread_id event w in
  (event_name event <> "thread.run.requires_action" -> o = Ret tt w) /\
  (event_name event = "thread.run.requires_action" ->
   forall outs w1, answers = Ret outs w1 ->
     map tool_call_id outs
     = map call_id (List.filter known (tool_calls (event_data event))) /\
     (exists more,
        submitted (world_of o)
        = submitted w
            ++ mkSubmission thread_id (run_id (event_data event)) outs :: more) /\
     (continued outs = EndOfStream ->
      o = Ret tt (with_batch
                    (mkSubmission thread_id (run_id (event_data event)) outs)
                    w1) /\
      submitted (world_of o)
      = submitted w ++ [mkSubmission thread_id (run_id (event_data event)) outs])) /\
  (event_name event = "thread.run.requires_action" ->
   forall e w1, answers = Raise e w1 ->
     o = Raise e w1 /\ submitted (world_of o) = submitted w).
Proof.
  intros answers o. subst answers o. unfold Model.on_event.
  destruct (decide (event_name event = "thread.run.requires_action")) as [E|N].
  - destruct (handler_steps py_str lower literal_eval db
                (fun tool_outputs =>
                   Model.until_done py_str lower literal_eval db thread_id
                     (continued tool_outputs))
                thread_id (event_data event) (run_id (event_data event)) w)
      as [Hret Hraise].
    split; [intros Hn; contradiction|]. split; intros _.
    + intros outs w1 Ea. destruct (Hret outs w1 Ea) as [Hs ->].
      split; [eapply mapM_answer_ids, Ea|]. split.
      * destruct (appends_until_done py_str lower literal_eval db thread_id
                    (continued outs)
                    (with_batch
                       (mkSubmission thread_id (run_id (event_data event)) outs)
                       w1)) as (more & ->).
        exists more. simpl. rewrite Hs. now rewrite <- app_assoc.
      * intros ->. split; [reflexivity|]. simpl. now rewrite Hs.
    + intros e w1 Ea. destruct (Hraise e w1 Ea) as [Hs ->]. now split.
  - split; [reflexivity|]. split; intros Hn; contradiction.
Qed.

Lemma on_event_batches_witness :
  exists outs more,
    submitted (world_of
                 (Model.on_event Fixture.repr_list PyStr.lower_ascii
                    Fixture.parse_args
                    (fun tool_outputs =>
                       Model.until_done Fixture.repr_list PyStr.lower_ascii
                         Fixture.parse_args Fixture.soy_db "thread"
                         (Fixture.asks_again tool_outputs))
                    Fixture.soy_db "thread"
                    (mkEvent "thread.run.requires_action"
                       (mkRun "run"
                          [Fixture.t1; mkCall "t9" "weather" "{}"; Fixture.t2]))
                    Fixture.world0))
    = mkSubmission "thread" "run" outs :: more /\
    map tool_call_id outs = ["t1"; "t2"] /\ length more = 1.
Proof.
  destruct (mapM (answer_call Fixture.repr_list PyStr.lower_ascii
                    Fixture.parse_args Fixture.soy_db)
              [Fixture.t1; Fixture.t2] Fixture.world0) as [outs w1|e w1] eqn:Ea;
    [|vm_compute in Ea; discriminate Ea].
  destruct (on_event_batches Fixture.repr_list PyStr.lower_ascii
              Fixture.parse_args Fixture.soy_db "thread"
              (mkEvent "thread.run.requires_action"
                 (mkRun "run" [Fixture.t1; mkCall "t9" "weather" "{}"; Fixture.t2]))
              Fixture.asks_again Fixture.world0) as (_ & H & _).
  destruct (H eq_refl outs w1 Ea) as (Hi & (more & Hs) & _).
  exists outs, more. split; [exact Hs|]. split; [exact Hi|].
  pose proof Hs as Hs'. vm_compute in Hs'. injection Hs' as _ <-. reflexivity.
Defined.

(* ===================================================================== *)
(** ** Classification of the questions *)
(* ===================================================================== *)

Lemma classify_from_select reply questions : forall k filtered rejected,
  Classifier.classify_from reply k questions filtered rejected
  = (filtered ++ select_by_reply (fun a => bool_decide (a = "pesticides"))
                   reply k questions,
     rejected ++ select_by_reply (fun a => negb (bool_decide (a = "pesticides")))
                   reply k questions).
Proof.
  induction questions as [|q rest IH]; intros k filtered rejected.
  - simpl. now rewrite !app_nil_r.
  - cbn [Classifier.classify_from select_by_reply].
    destruct (decide (reply k = "pesticides")) as [E|N].
    + rewrite (bool_decide_eq_true_2 _ E). simpl negb. cbv iota.
      rewrite IH. now rewrite <- app_assoc.
    + rewrite (bool_decide_eq_false_2 _ N). simpl negb. cbv iota.
      rewrite IH. now rewrite <- app_assoc.
Qed.

Lemma select_split p reply questions : forall k,
  select_by_reply p reply k questions
    ++ select_by_reply (fun a => negb (p a)) reply k questions
  ≡ₚ questions.
Proof.
  induction questions as [|q rest IH]; intros k; [reflexivity|].
  cbn [select_by_reply]. destruct (p (reply k)); simpl.
  - now rewrite IH.
  - rewrite <- Permutation_middle. now rewrite IH.
Qed.

(** X17. The classification loop puts every question on exactly one of the
    two lists, in the order asked: on the list of admitted questions when
    the reply to it is exactly "pesticides", on the list of rejected
    questions for any other reply. *)
Theorem classify_partitions_the_questions reply questions :
  let '(filtered, rejected) := Classifier.classify reply questions in
  filtered = select_by_reply (fun a => bool_decide (a = "pesticides"))
               reply 0 questions /\
  rejected = select_by_reply (fun a => negb (bool_decide (a = "pesticides")))
               reply 0 questions /\
  filtered ++ rejected ≡ₚ questions /\
  length filtered + length rejected = length questions.
Proof.
  unfold Classifier.classify. rewrite classify_from_select. simpl app.
  split; [reflexivity|]. split; [reflexivity|].
  pose proof (select_split (fun a => bool_decide (a = "pesticides")) reply
                questions 0) as Hp.
  split; [exact Hp|]. rewrite <- length_app. now rewrite Hp.
Qed.

(* ===================================================================== *)
(** ** Ingestion *)
(* ===================================================================== *)

Section DictFacts.
Import Records.

Lemma dict_get_set_same k v d : dict_get k (dict_set k v d) = Some v.
Proof.
  induction d as [|[k' v'] d IH]; simpl.
  - now destruct (decide (k = k)).
  - destruct (decide (k' = k)) as [->|Hne]; simpl.
    + now destruct (decide (k = k)).
    + now destruct (decide (k' = k)).
Qed.

Lemma dict_get_set_other k k' v d :
  k' <> k -> dict_get k' (dict_set k v d) = dict_get k' d.
Proof.
  intros Hne. induction d as [|[k0 v0] d IH]; simpl.
  - destruct (decide (k = k')); [congruence|reflexivity].
  - destruct (decide (k0 = k)) as [->|Hn0]; simpl.
    + destruct (decide (k = k')); [congruence|reflexivity].
    + destruct (decide (k0 = k')); [reflexivity|exact IH].
Qed.

Lemma dict_get_set_all kvs : forall d c,
  c ∉ map fst kvs ->
  dict_get c (fold_left (fun d kv => dict_set kv.1 kv.2 d) kvs d) = dict_get c d.
Proof.
  induction kvs as [|[k v] kvs IH]; intros d c Hc; [reflexivity|].
  simpl. rewrite IH by (intros H; apply Hc; now right).
  apply dict_get_set_other. intros ->. apply Hc. now left.
Qed.

Lemma dict_get_set_some kvs : forall d c,
  c ∈ map fst kvs ->
  exists v, dict_get c (fold_left (fun d kv => dict_set kv.1 kv.2 d) kvs d) = Some v.
Proof.
  induction kvs as [|[k v] kvs IH]; intros d c Hc; [inversion Hc|].
  simpl. destruct (decide (c ∈ map fst kvs)) as [Hin|Hout]; [now apply IH|].
  simpl in Hc. apply elem_of_cons in Hc as [->|Hc]; [|contradiction].
  rewrite dict_get_set_all by exact Hout. exists v. apply dict_get_set_same.
Qed.

End DictFacts.

Section IngestionFacts.
Import Records.
Variable stamp : Item -> list (string * Value).
Variable uuid4 : nat -> string.
Hypothesis stamp_fields : stamps_store_fields stamp.

Lemma stamp_keys_internal body c :
  c ∈ map fst (stamp body) -> c ∈ AgroDatabase.internal_fields.
Proof.
  rewrite stamp_fields. unfold AgroDatabase.internal_fields. intros H. now right.
Qed.

Lemma stored_get body c :
  c ∉ map fst (stamp body) -> dict_get c (stored stamp body) = dict_get c body.
Proof. intros Hc. unfold stored. now apply dict_get_set_all. Qed.

Lemma id_not_stamped body : "id" ∉ map fst (stamp body).
Proof.
  rewrite stamp_fields. intros H.
  repeat (apply elem_of_cons in H as [H|H]; [discriminate|]). inversion H.
Qed.

(** A created document reads back as its record, has the identifier it was
    given and carries every field of the store. *)
Lemma new_document_shape n item :
  let doc := stored stamp (dict_set "id" (VStr (uuid4 n)) item) in
  reads_back item doc /\
  dict_get "id" doc = Some (VStr (uuid4 n)) /\
  (forall f, f ∈ AgroDatabase.internal_fields -> f ∈ dict_keys doc).
Proof.
  intros doc. subst doc. split; [|split].
  - intros c Hc.
    rewrite stored_get by (intros H; apply Hc; eapply stamp_keys_internal, H).
    apply dict_get_set_other. intros ->. apply Hc. now left.
  - rewrite stored_get by apply id_not_stamped. apply dict_get_set_same.
  - intros f Hf. unfold AgroDatabase.internal_fields in Hf.
    apply elem_of_cons in Hf as [->|Hf].
    + eapply dict_get_Some_key. rewrite stored_get by apply id_not_stamped.
      apply dict_get_set_same.
    + assert (Hin : f ∈ map fst (stamp (dict_set "id" (VStr (uuid4 n)) item)))
        by (now rewrite stamp_fields).
      destruct (dict_get_set_some _ (dict_set "id" (VStr (uuid4 n)) item) f Hin)
        as (v & Hv).
      eapply dict_get_Some_key, Hv.
Qed.

Hypothesis uuid4_distinct : forall i j, uuid4 i = uuid4 j -> i = j.

Lemma load_items_fresh items : forall n container,
  (forall doc k, doc ∈ container -> n <= k ->
                 dict_get "id" doc <> Some (VStr (uuid4 k))) ->
  load_items stamp uuid4 n items container
  = Loaded (container ++ new_documents stamp uuid4 n items).
Proof.
  induction items as [|item items IH]; intros n container Hfresh.
  - simpl. now rewrite app_nil_r.
  - cbn [load_items new_documents]. unfold create_item.
    assert (Hno : existsb (clashes (dict_set "id" (VStr (uuid4 n)) item)) container
                  = false).
    { apply not_true_is_false. intros Hex.
      apply existsb_exists in Hex as (doc & Hin & Hc).
      unfold clashes in Hc. apply bool_decide_eq_true in Hc as [Hid _].
      rewrite dict_get_set_same in Hid.
      apply (Hfresh doc n); [now apply list_elem_of_In|lia|exact Hid]. }
    rewrite Hno. rewrite IH.
    + now rewrite <- app_assoc.
    + intros doc k Hin Hk. apply elem_of_app in Hin as [Hin|Hin].
      * apply Hfresh; [exact Hin|lia].
      * apply list_elem_of_singleton in Hin as ->.
        destruct (new_document_shape n item) as (_ & -> & _).
        intros [= Heq]. apply uuid4_distinct in Heq. lia.
Qed.

Lemma new_documents_shape items : forall n,
  Forall2 reads_back items (new_documents stamp uuid4 n items) /\
  store_fields_present (new_documents stamp uuid4 n items).
Proof.
  induction items as [|item items IH]; intros n.
  - split; [constructor|]. intros it f Hit. inversion Hit.
  - destruct (IH (S n)) as [H2 Hp].
    destruct (new_document_shape n item) as (Hr & _ & Hf).
    split; [now constructor|].
    intros it f Hit Hin. cbn [new_documents] in Hit.
    apply elem_of_cons in Hit as [->|Hit]; [now apply Hf|now apply Hp].
Qed.

End IngestionFacts.

(** X18. Loading appends. With a store that adds its five fields and a
    generator that never repeats an identifier, none of which is in use in
    the container, [load_json_to_cosmos] is not refused: it keeps the
    documents of the container and adds, in the order of the records, one
    document per record, which has the record's attributes, the identifier
    generated for it under [id] (in place of an [id] of the record) and the
    fields of the store. *)
Theorem load_appends_one_document_per_record stamp uuid4 n container data :
  stamps_store_fields stamp ->
  (forall i j, uuid4 i = uuid4 j -> i = j) ->
  (forall doc k, doc ∈ container -> n <= k ->
                 dict_get "id" doc <> Some (VStr (uuid4 k))) ->
  let docs := new_documents stamp uuid4 n (Records.to_dict_records data) in
  Records.load_json_to_cosmos stamp uuid4 n container data
  = Records.Loaded (container ++ docs) /\
  length docs = length (rows data) /\
  Forall2 reads_back (Records.to_dict_records data) docs /\
  store_fields_present docs.
Proof.
  intros Hs Hu Hfresh docs. subst docs. unfold Records.load_json_to_cosmos.
  split; [now apply load_items_fresh|].
  destruct (new_documents_shape stamp uuid4 Hs (Records.to_dict_records data) n)
    as [H2 Hp].
  split; [|now split].
  apply Forall2_length in H2. rewrite <- H2.
  unfold Records.to_dict_records. apply length_map.
Qed.

Lemma load_appends_witness :
  Records.load_json_to_cosmos Fixture.stamp Fixture.uuid4 0 [] Fixture.technical_file
  = Records.Loaded
      (new_documents Fixture.stamp Fixture.uuid4 0
         (Records.to_dict_records Fixture.technical_file)) /\
  length (new_documents Fixture.stamp Fixture.uuid4 0
            (Records.to_dict_records Fixture.technical_file)) = 3.
Proof.
  destruct (load_appends_one_document_per_record Fixture.stamp Fixture.uuid4 0 []
              Fixture.technical_file) as (Hl & Hn & _).
  - intros body. reflexivity.
  - intros i j H. now apply pretty_nat_inj in H.
  - intros doc k Hin. inversion Hin.
  - split; [exact Hl|exact Hn].
Defined.

Section RoundTrip.
Import Records.



Lemma container_exists_put name c db :
  container_exists (put_container name c db) name = container_exists db name.
Proof.
  assert (Hn : map fst (put_container name c db) = map fst db).
  { unfold put_container. rewrite map_map. apply map_ext. intros [n its]. simpl.
    now destruct (decide (n = name)). }
  unfold container_exists. now rewrite Hn.
Qed.

Lemma container_exists_created name db :
  container_exists (create_container db name) name = true.
Proof.
  unfold create_container. destruct (container_exists db name) eqn:E; [exact E|].
  unfold container_exists. apply bool_decide_eq_true.
  rewrite map_app. apply elem_of_app. right. now left.
Qed.



End RoundTrip.



(** X20. The ingestion runs once. When the container exists the guarded
    ingestion leaves the database as it is, even if the container is
    empty; after a guarded ingestion the container exists, so that running
    the ingestion again, with any file, changes nothing. *)
Theorem ingestion_is_skipped_once_the_container_exists stamp uuid4 n db name data :
  (Records.container_exists db name = true ->
   Records.ingest_if_missing stamp uuid4 n db name data = (db, true)) /\
  Records.container_exists
    (Records.ingest_if_missing stamp uuid4 n db name data).1 name = true /\
  (forall n' data',
      Records.ingest_if_missing stamp uuid4 n'
        (Records.ingest_if_missing stamp uuid4 n db name data).1 name data'
      = ((Records.ingest_if_missing stamp uuid4 n db name data).1, true)).
Proof.
  assert (H1 : forall m d file, Records.container_exists d name = true ->
             Records.ingest_if_missing stamp uuid4 m d name file = (d, true)).
  { intros m d file H. unfold Records.ingest_if_missing. now rewrite H. }
  assert (H2 : Records.container_exists
                 (Records.ingest_if_missing stamp uuid4 n db name data).1 name
               = true).
  { unfold Records.ingest_if_missing.
    destruct (Records.container_exists db name) eqn:E; [exact E|].
    destruct (Records.load_json_to_cosmos stamp uuid4 n [] data); cbn [fst];
      rewrite container_exists_put; apply container_exists_created. }
  split; [apply H1|]. split; [exact H2|].
  intros n' data'. now apply H1.
Qed.

Lemma ingestion_skipped_witness :
  Records.ingest_if_missing Fixture.stamp Fixture.uuid4 0 Fixture.empty_db
    "produtostecnicos" Fixture.technical_file
  = (Fixture.empty_db, true).
Proof.
  exact (proj1 (ingestion_is_skipped_once_the_container_exists Fixture.stamp
                  Fixture.uuid4 0 Fixture.empty_db "produtostecnicos"
                  Fixture.technical_file) eq_refl).
Defined.
